(** * Topographica model scripts: gcal_od.ty and the SOM retinotopy notebook

    A shallow embedding of the two artifacts of the repository:
    - [models/gcal_od.ty], a parameter script that wires a GCAL ocular
      dominance model into the simulator's registry [topo.sim];
    - [doc/Tutorials/som_retinotopy.ipynb], a notebook that defines the SOM
      retinotopy model and then explores it.

    Both are configuration over the Topographica framework.  A script is
    embedded as a computation in a small state monad: the state holds the
    class-level defaults the script has assigned so far and the log of
    configuration statements and framework calls it has issued, in program
    order.  The numbers a script hands to the framework are recorded as the
    rationals ([Q]) their expressions denote.  Where the rounding of binary64
    decides an outcome (how many patterns are built, whether two computed
    scales add up to exactly 2) the computation is carried out in binary64. *)

From Stdlib Require Import QArith Qround Lqa ZArith Lia List String Sorted SpecFloat.
From stdpp Require Import base gmap sets list strings pretty.

Set Warnings "-register-all,-clear-no-such-hyp".
Open Scope Q_scope.

(** ** numbergen: lazily evaluated number generators *)

Module Numbergen.

Inductive BinOp := OpAdd | OpSub | OpMul.

(** [a + g], [2.0 - g], [a * g] on a generator [g] build a
    [BinaryOperator] object that is evaluated at every draw. *)
Inductive NumberGenerator :=
| Num (v : Q)
| UniformRandom (lbound ubound : Q) (seed : Q)
| BinaryOperator (op : BinOp) (lhs rhs : NumberGenerator).

(** Values that change with simulation time (notebook only). *)
Inductive Schedule :=
| ExponentialDecay (starting_value time_constant : Q)
| BoundedNumber (lower : Q) (generator : Schedule).

Definition apply_op (op : BinOp) (a b : Q) : Q :=
  match op with
  | OpAdd => a + b
  | OpSub => a - b
  | OpMul => a * b
  end.

Section Eval.
(** [draw s] is the number in the unit interval that a random stream
    seeded with [s] yields at the presentation under consideration.
    Two generator objects built with the same seed and called equally
    often read the same value. *)
Variable draw : Q -> Q.

Fixpoint eval (g : NumberGenerator) : Q :=
  match g with
  | Num v => v
  | UniformRandom lb ub s => lb + (ub - lb) * draw s
  | BinaryOperator op a b => apply_op op (eval a) (eval b)
  end.
End Eval.

End Numbergen.
Export Numbergen.

(** ** Patterns, sheets, projections *)

(** [2*sqrt(r)/d] is kept symbolic: the square root is not rational. *)
Inductive Size :=
| SizeNum (v : Q)
| SizeSqrt (factor radicand divisor : Q).

Inductive PatternGenerator :=
| Gaussian (x y orientation : NumberGenerator) (size : Size)
           (aspect_ratio : Q) (scale : NumberGenerator)
| FileImage (filename : string) (size : Q) (cache_image : bool)
            (x y orientation scale : NumberGenerator)
| SeparatedComposite (min_separation : Q) (generators : list PatternGenerator)
| Selector (generators : list PatternGenerator).

Definition pattern_scale (g : PatternGenerator) : option NumberGenerator :=
  match g with
  | Gaussian _ _ _ _ _ s => Some s
  | FileImage _ _ _ _ _ _ s => Some s
  | _ => None
  end.

Definition generators_of (g : PatternGenerator) : list PatternGenerator :=
  match g with
  | SeparatedComposite _ gs => gs
  | Selector gs => gs
  | _ => []
  end.

Inductive OutputFn :=
| HalfRectify
| PiecewiseLinear (lower_bound upper_bound : Q)
| HomeostaticResponse
| KernelMax (density : Q) (kernel_radius : Schedule).

Inductive SheetClass :=
| GeneratorSheet | CFSheet | SettlingCFSheet | SettlingCFSheet_Opt.

(** A sheet as instantiated; [None] means the keyword was not passed and no
    class-level default had been assigned by the script (the framework's own
    default applies). *)
Record Sheet := {
  sheet_class : SheetClass;
  nominal_density : option Q;
  nominal_bounds : option Q;          (* BoundingBox(radius=...) *)
  input_generator : option PatternGenerator;
  period : option Q;
  phase : option Q;
  row_precedence : option Q;
  measure_maps : option bool;
  tsettle : option Z;
  strict_tsettle : option Z;
  plastic : option bool;
  output_fns : list OutputFn
}.

Definition blank_sheet (c : SheetClass) : Sheet :=
  {| sheet_class := c; nominal_density := None; nominal_bounds := None;
     input_generator := None; period := None; phase := None;
     row_precedence := None; measure_maps := None; tsettle := None;
     strict_tsettle := None; plastic := None; output_fns := [] |}.

Inductive ConnectionType := CFProjection | SharedWeightCFProjection.

Inductive WeightsGenerator :=
| on_weights | off_weights | lgn_surroundg
| GaussianCloud (gaussian_size : Q)
| GaussianWeights (aspect_ratio size : Q)
| UniformRandomWeights.

Inductive LearningRate :=
| LrConst (v : Q)
| LrSchedule (s : Schedule).

Inductive ResponseFn := CFPRF_DotProduct_opt | CFPRF_EuclideanDistance_opt.
Inductive LearningFn := CFPLF_Hebbian_opt | CFPLF_EuclideanHebbian.

(** The arguments of one [topo.sim.connect] call. *)
Record Projection := {
  src : string;
  dest : string;
  name : string;
  delay : Q;
  strength : option Q;
  connection_type : ConnectionType;
  dest_port : list string;
  activity_group : option (Q * Q);    (* (0.6, DivideWithConstant(c=...)) *)
  nominal_bounds_template : Q;        (* BoundingBox(radius=...) *)
  weights_generator : WeightsGenerator;
  learning_rate : option LearningRate;
  seed : option Q;
  response_fn : option ResponseFn;
  learning_fn : option LearningFn
}.

(** ** Global parameters declared with [p.add] *)

Inductive ParamKind :=
| ObjectSelector (objects : list string)
| Integer
| Number
| Boolean
| ListOf.

Inductive Default :=
| DStr (s : string) | DNum (v : Q) | DBool (b : bool) | DList (l : list string).

Record ParamDecl := {
  pname : string;
  pkind : ParamKind;
  pdefault : Default;
  bounds : option (option Q * option Q);
  inclusive_bounds : option (bool * bool)
}.

Definition is_numeric (k : ParamKind) : bool :=
  match k with
  | Integer | Number => true
  | _ => false
  end.

(** ** Statements and framework calls *)

(** The [times] argument of a Collector call. *)
Inductive Times :=
| TimesList (l : list Z)
| TimesOfSimTime (multipliers : list Z).   (* topo.sim.time()*i *)

Inductive Command :=
| connect (pr : Projection)                       (* topo.sim.connect *)
| run (duration : Q)                              (* topo.sim.run *)
| grid_layout (objgrid : list (list (option string)))
              (xstep ystep : Z) (item_scale : Q)  (* topo.sim.grid_layout *)
| measure_cog                                     (* topo.command.analysis *)
| grid (sheet proj : string)                      (* topo.sim.V1.Afferent.grid() *)
| projection_view (sheet proj : string)
| anim (frames : Z) (offset : Q)                  (* input_pattern.anim *)
| new_Collector
| collect (what : string)                         (* c.collect(...) *)
| call_Collector (times : Times)                  (* c(times=...) *)
| sim_time.                                       (* topo.sim.time() *)

(** The right-hand side of an attribute assignment. *)
Inductive AttrValue :=
| VNum (v : Q)
| VNums (l : list Q)
| VBool (b : bool)
| VObj (constructor : string).

Inductive Event :=
| EvMagic (line : string)                         (* IPython magics *)
| EvParamAdd (decls : list ParamDecl)             (* p.add(...) *)
| EvParamSet (param : string) (v : Q)             (* p.name = v *)
| EvClassAttr (cls attr : string) (v : AttrValue) (* Class.attr = ... *)
| EvSimName (n : string)                          (* topo.sim.name = ... *)
| EvSeed (a b : Z)                                (* numpy.random.seed *)
| EvRegister (key : string) (s : Sheet)           (* topo.sim[key] = sheet *)
| EvObjAttr (obj attr : string)                   (* topo.sim[obj].attr = ... *)
| EvPlotgroups (pgs : list string)                (* default_analysis_plotgroups *)
| EvCommand (c : Command)
| EvDisplay (expr : string).                      (* bare expression in a cell *)

(** ** The script monad *)

Record Interp := {
  class_defaults : gmap string Q;   (* numeric class attributes assigned so far *)
  log : list Event
}.

Definition fresh : Interp := {| class_defaults := ∅; log := [] |}.

Definition Script (A : Type) : Type := Interp -> A * Interp.

#[global] Instance script_ret : MRet Script := fun A a s => (a, s).

#[global] Instance script_bind : MBind Script :=
  fun A B k m s => let '(a, s') := m s in k a s'.

Definition ret {A} (a : A) : Script A := mret a.

Definition emit (ev : Event) : Script unit :=
  fun s => (tt, {| class_defaults := class_defaults s; log := log s ++ [ev] |}).

Definition class_key (cls attr : string) : string := cls +:+ "." +:+ attr.

(** [Class.attr = v] for a numeric attribute: later instances see [v]. *)
Definition set_class_attr (cls attr : string) (v : Q) : Script unit :=
  fun s => (tt, {| class_defaults := <[class_key cls attr := v]> (class_defaults s);
                   log := log s ++ [EvClassAttr cls attr (VNum v)] |}).

(** [Class.attr = v] for any other right-hand side. *)
Definition set_class_obj (cls attr : string) (v : AttrValue) : Script unit :=
  emit (EvClassAttr cls attr v).

Definition class_default (cls attr : string) : Script (option Q) :=
  fun s => (class_defaults s !! class_key cls attr, s).

Definition or_default (kw dflt : option Q) : option Q :=
  match kw with
  | Some v => Some v
  | None => dflt
  end.

(** [sheet.GeneratorSheet(...)]: keywords win over class attributes. *)
Definition new_GeneratorSheet (kw : Sheet) : Script Sheet :=
  d ← class_default "GeneratorSheet" "nominal_density";
  pe ← class_default "GeneratorSheet" "period";
  ph ← class_default "GeneratorSheet" "phase";
  ret {| sheet_class := GeneratorSheet;
         nominal_density := or_default (nominal_density kw) d;
         nominal_bounds := nominal_bounds kw;
         input_generator := input_generator kw;
         period := or_default (period kw) pe;
         phase := or_default (phase kw) ph;
         row_precedence := row_precedence kw;
         measure_maps := measure_maps kw;
         tsettle := tsettle kw;
         strict_tsettle := strict_tsettle kw;
         plastic := plastic kw;
         output_fns := output_fns kw |}.

(** [topo.sim[key] = s] *)
Definition register (key : string) (s : Sheet) : Script unit :=
  emit (EvRegister key s).

Definition command (c : Command) : Script unit := emit (EvCommand c).

(** [for x in l: body] *)
Fixpoint for_each {A} (l : list A) (body : A -> Script unit) : Script unit :=
  match l with
  | [] => ret tt
  | x :: l' => body x;; for_each l' body
  end.

Definition when (b : bool) (body : Script unit) : Script unit :=
  if b then body else ret tt.

Definition trace_of (m : Script unit) : list Event := log (snd (m fresh)).

(** [xrange(n)] *)
Definition xrange (n : Z) : list Z := map Z.of_nat (seq 0 (Z.to_nat n)).

(** [range(a, b)] *)
Definition range (a b : Z) : list Z := map (fun k => (a + k)%Z) (xrange (b - a)).

(** [int(x)]: truncation towards zero. *)
Definition int (x : Q) : Z := Z.quot (Qnum x) (Z.pos (Qden x)).

(** ** Binary64 arithmetic

    Where the outcome of a float computation decides something discrete (how
    many patterns are built) or is compared for exact equality, the rounding
    of binary64 matters.  These are the operations of IEEE 754 binary64,
    round to nearest, ties to even, on the standard library's specification
    of floating-point numbers. *)

Module Binary64.

Definition prec : Z := 53.
Definition emax : Z := 1024.

(** [float(n)] for a Python int. *)
Definition of_Z (z : Z) : spec_float := binary_normalize prec emax z 0 false.

(** The double nearest to a rational: the value of a decimal literal, and
    of a parameter given as a decimal. *)
Definition of_Q (q : Q) : spec_float :=
  match Qnum q with
  | Z0 => S754_zero false
  | Zpos n =>
      SFdiv prec emax (S754_finite false n 0) (S754_finite false (Qden q) 0)
  | Zneg n =>
      SFdiv prec emax (S754_finite true n 0) (S754_finite false (Qden q) 0)
  end.

(** The rational a finite double stands for (0 for infinities and NaN). *)
Definition to_Q (x : spec_float) : Q :=
  match x with
  | S754_finite s m e =>
      let n := if s then Z.neg m else Z.pos m in
      match e with
      | Z0 => inject_Z n
      | Zpos k => inject_Z (n * Z.pow_pos 2 k)
      | Zneg k => n # (Pos.pow 2 k)
      end
  | _ => 0
  end.

Definition is_finite (x : spec_float) : bool :=
  match x with
  | S754_finite _ _ _ | S754_zero _ => true
  | _ => false
  end.

Definition add : spec_float -> spec_float -> spec_float := SFadd prec emax.
Definition sub : spec_float -> spec_float -> spec_float := SFsub prec emax.
Definition mul : spec_float -> spec_float -> spec_float := SFmul prec emax.

End Binary64.

(** [len(l)] as a Python int. *)
Definition len {A} (l : list A) : Z := Z.of_nat (length l).

(** [math.pi]: the double nearest to pi, which is this rational. *)
Definition pi : Q := 884279719003555 # 281474976710656.

(** ["%02d" % n] for a non-negative [n]. *)
Definition fmt_02d (n : Z) : string :=
  let s := pretty (Z.to_N n) in
  if (String.length s <? 2)%nat then "0" +:+ s else s.

(** [a > b] on floats. *)
Definition Qgtb (a b : Q) : bool := negb (Qle_bool a b).

(** * models/gcal_od.ty *)

Module GcalOd.

Inductive Dataset := DsGaussian | DsNature.

(** The values of the global parameters [p]. *)
Record Params := {
  dataset : Dataset;
  num_inputs : Z;
  dims : list string;
  area : Q;
  gain_control : bool;
  retina_density : Q;
  lgn_density : Q;
  cortex_density : Q;
  dim_fraction : Q;
  max_disparity : Q;
  aff_strength : Q;
  exc_strength : Q;
  inh_strength : Q;
  aff_lr : Q;
  exc_lr : Q;
  inh_lr : Q
}.

Definition lower (b : Q) : option (option Q * option Q) := Some (Some b, None).
Definition open_closed : option (bool * bool) := Some (false, true).

Definition decl n k d b ib : ParamDecl :=
  {| pname := n; pkind := k; pdefault := d; bounds := b; inclusive_bounds := ib |}.

(** The arguments of [p.add(...)], lines 40-107. *)
Definition declared : list ParamDecl :=
  [ decl "dataset" (ObjectSelector ["Gaussian"; "Nature"]) (DStr "Gaussian") None None;
    decl "num_inputs" Integer (DNum 2) (lower 1) None;
    decl "dims" ListOf (DList ["or"; "od"]) None None;
    decl "area" Number (DNum 1.0) (lower 0) open_closed;
    decl "gain_control" Boolean (DBool true) None None;
    decl "retina_density" Number (DNum 24.0) (lower 0) open_closed;
    decl "lgn_density" Number (DNum 24.0) (lower 0) open_closed;
    decl "cortex_density" Number (DNum 48.0) (lower 0) open_closed;
    decl "dim_fraction" Number (DNum 0.7) (Some (Some 0.0, Some 1.0)) None;
    decl "max_disparity" Number (DNum 4.0) (lower 0) None;
    decl "aff_strength" Number (DNum 1.0) (lower 0.0) None;
    decl "exc_strength" Number (DNum 1.7) (lower 0.0) None;
    decl "inh_strength" Number (DNum 1.4) (lower 0.0) None;
    decl "aff_lr" Number (DNum 0.1) (lower 0.0) None;
    decl "exc_lr" Number (DNum 0.0) (lower 0.0) None;
    decl "inh_lr" Number (DNum 0.3) (lower 0.0) None ].

(** The declared defaults. *)
Definition defaults : Params :=
  {| dataset := DsGaussian; num_inputs := 2; dims := ["or"; "od"];
     area := 1.0; gain_control := true; retina_density := 24.0;
     lgn_density := 24.0; cortex_density := 48.0; dim_fraction := 0.7;
     max_disparity := 4.0; aff_strength := 1.0; exc_strength := 1.7;
     inh_strength := 1.4; aff_lr := 0.1; exc_lr := 0.0; inh_lr := 0.3 |}.

Section Script.
Variable p : Params.

(** [d in p.dims] *)
Definition has_dim (d : string) : bool := bool_decide (d ∈ dims p).

(** Lines 123-136. *)
Definition center_polarities : list string := ["On"; "Off"].

Definition two_eyes : bool := has_dim "od" || has_dim "dy".

Definition eyes : list string :=
  if two_eyes then ["Left"; "Right"] else [EmptyString].

Definition disparity_bound : Q :=
  if has_dim "dy" then max_disparity p * 0.041665 / 2.0 else 0.0.

Definition position_bound : Q :=
  if has_dim "dy" && Qgtb (max_disparity p) 0.0
  then area p / 2.0 + 0.2
  else area p / 2.0 + 0.25.

Definition sim_name : string := "gcal_" +:+ String.concat "_" (dims p).

Definition input_seed : Z := 500.

Definition num_aff : Z := len center_polarities * len eyes.

(** [numbergen.UniformRandom(lbound=..,ubound=..,seed=..)] *)
Definition uniform (lb ub : Q) (s : Z) : NumberGenerator :=
  UniformRandom lb ub (inject_Z s).

(** [g*(-1)**(e=='Left')] *)
Definition flip_for (e : string) (g : NumberGenerator) : NumberGenerator :=
  BinaryOperator OpMul g (Num (if String.eqb e "Left" then -1 else 1)).

(** Lines 151-165: the Gaussian branch.  [p.num_inputs*p.area*p.area] is a
    product of doubles, rounded at each step, that [int] truncates. *)
Definition num_inputs_product : spec_float :=
  Binary64.mul
    (Binary64.mul (Binary64.of_Z (num_inputs p)) (Binary64.of_Q (area p)))
    (Binary64.of_Q (area p)).

Definition total_num_inputs : Z := int (Binary64.to_Q num_inputs_product).

Definition gaussian_input (e : string) (i : Z) : PatternGenerator :=
  Gaussian
    (BinaryOperator OpAdd
       (uniform (- position_bound) position_bound (input_seed + 6 * i))
       (flip_for e
          (uniform (- disparity_bound) disparity_bound (input_seed + 1 + 6 * i))))
    (uniform (- 0.75) 0.75 (input_seed + 2 + 6 * i))
    (uniform (- pi) pi (input_seed + 3 + 6 * i))
    (SizeNum 0.088388)
    4.66667
    (BinaryOperator OpAdd (Num (1 - dim_fraction p))
       (BinaryOperator OpMul (Num (dim_fraction p))
          (if String.eqb e "Right"
           then BinaryOperator OpSub (Num 2.0)
                  (uniform 0 2 (input_seed + 5 + 6 * i))
           else uniform 0 2 (input_seed + 5 + 6 * i)))).

Definition gaussian_inputs (e : string) : list PatternGenerator :=
  map (gaussian_input e) (xrange total_num_inputs).

(** Lines 167-182: the Nature branch.  The conditional expression has
    the lowest precedence, so it selects between the whole sum and the
    bare generator. *)
Definition image_filenames : list string :=
  map (fun i => "images/shouval/combined" +:+ fmt_02d (i + 1) +:+ ".png")
      (xrange 25).

Definition nature_input (e : string) (f : string) (i : Z) : PatternGenerator :=
  FileImage f 10.0 false
    (BinaryOperator OpAdd
       (uniform (- 0.75) 0.75 (input_seed + 5 * i))
       (flip_for e
          (uniform (- disparity_bound) disparity_bound (input_seed + 1 + 5 * i))))
    (uniform (- 0.75) 0.75 (input_seed + 2 + 5 * i))
    (uniform (- (pi / 8)) (pi / 8) (input_seed + 3 + 5 * i))
    (if String.eqb e "Right"
     then BinaryOperator OpAdd (Num (1 - dim_fraction p))
            (BinaryOperator OpMul (Num (dim_fraction p))
               (BinaryOperator OpSub (Num 2.0)
                  (uniform 0 2 (input_seed + 4 + 5 * i))))
     else uniform 0 2 (input_seed + 4 + 5 * i)).

Definition nature_inputs (e : string) : list PatternGenerator :=
  map (fun fi => nature_input e (fst fi) (snd fi))
      (zip image_filenames (xrange (len image_filenames))).

Definition inputs (e : string) : list PatternGenerator :=
  match dataset p with
  | DsGaussian => gaussian_inputs e
  | DsNature => nature_inputs e
  end.

Definition combined_inputs (e : string) : PatternGenerator :=
  match dataset p with
  | DsGaussian => SeparatedComposite (2.2 * 0.27083) (gaussian_inputs e)
  | DsNature => Selector (nature_inputs e)
  end.

(** Lines 187-189. *)
Definition retina_args (e : string) : Sheet :=
  {| sheet_class := GeneratorSheet;
     nominal_density := Some (retina_density p);
     nominal_bounds := Some (area p / 2.0 + 0.25 + 0.375 + 0.5);
     input_generator := Some (combined_inputs e);
     period := Some 1.0;
     phase := Some 0.05;
     row_precedence := None; measure_maps := None; tsettle := None;
     strict_tsettle := None; plastic := None; output_fns := [] |}.

(** Lines 194-204. *)
Definition lgn_sheet (l : string) : Sheet :=
  {| sheet_class := if gain_control p then SettlingCFSheet_Opt else CFSheet;
     nominal_density := Some (lgn_density p);
     nominal_bounds := Some (area p / 2.0 + 0.25 + 0.5);
     input_generator := None; period := None; phase := None;
     row_precedence := Some (if String.eqb l "On" then 0.6 else 0.7);
     measure_maps := Some false;
     tsettle := if gain_control p then Some 2%Z else None;
     strict_tsettle := if gain_control p then Some 1%Z else None;
     plastic := None;
     output_fns := if gain_control p then [HalfRectify]
                   else [PiecewiseLinear 0.0 1.0] |}.

(** Lines 150-204: one retina and its LGN sheets per eye. *)
Definition create_subcortical_sheets : Script unit :=
  for_each eyes (fun e =>
    retina ← new_GeneratorSheet (retina_args e);
    register (e +:+ "Retina") retina;;
    for_each center_polarities (fun l =>
      let s := e +:+ "LGN" +:+ l in
      register s (lgn_sheet l))).

(** Lines 208-213. *)
Definition V1_sheet : Sheet :=
  {| sheet_class := SettlingCFSheet;
     nominal_density := Some (cortex_density p);
     nominal_bounds := Some (area p / 2.0);
     input_generator := None; period := None; phase := None;
     row_precedence := None; measure_maps := None;
     tsettle := Some 16%Z; strict_tsettle := None;
     plastic := Some true;
     output_fns := [HomeostaticResponse] |}.

Definition create_V1 : Script unit :=
  register "V1" V1_sheet;;
  emit (EvObjAttr "V1" "joint_norm_fn").

(** Lines 236-240. *)
Definition retina_to_lgn (e l : string) : Projection :=
  {| src := e +:+ "Retina"; dest := e +:+ "LGN" +:+ l; name := "Afferent";
     delay := 0.05; strength := Some 2.33;
     connection_type := SharedWeightCFProjection;
     dest_port := []; activity_group := None;
     nominal_bounds_template := 0.375;
     weights_generator := if String.eqb l "On" then on_weights else off_weights;
     learning_rate := None; seed := None;
     response_fn := None; learning_fn := None |}.

(** Lines 245-250. *)
Definition lateral_gc (e l e2 : string) : Projection :=
  {| src := e2 +:+ "LGN" +:+ l; dest := e +:+ "LGN" +:+ l;
     name := e2 +:+ "LateralGC";
     delay := 0.05; strength := Some (0.6 / inject_Z (len eyes));
     connection_type := SharedWeightCFProjection;
     dest_port := ["Activity"]; activity_group := Some (0.6, 0.11);
     nominal_bounds_template := 0.25;
     weights_generator := lgn_surroundg;
     learning_rate := None; seed := None;
     response_fn := None; learning_fn := None |}.

(** Lines 253-260. *)
Definition lgn_to_V1 (e l : string) : Projection :=
  {| src := e +:+ "LGN" +:+ l; dest := "V1";
     name := e +:+ "LGN" +:+ l +:+ "Afferent";
     delay := 0.05;
     strength := Some (aff_strength p * (if negb (gain_control p) then 1.0 else 1.5));
     connection_type := CFProjection;
     dest_port := ["Activity"; "JointNormalize"; "Afferent"];
     activity_group := None;
     nominal_bounds_template := 0.27083;
     weights_generator := GaussianCloud (2 * 0.27083);
     learning_rate := Some (LrConst (aff_lr p)); seed := None;
     response_fn := None; learning_fn := None |}.

(** Lines 263-273. *)
Definition lateral_excitatory : Projection :=
  {| src := "V1"; dest := "V1"; name := "LateralExcitatory";
     delay := 0.05; strength := Some (exc_strength p);
     connection_type := CFProjection;
     dest_port := []; activity_group := None;
     nominal_bounds_template := 0.104;
     weights_generator := GaussianWeights 1.0 0.05;
     learning_rate := Some (LrConst (exc_lr p)); seed := None;
     response_fn := None; learning_fn := None |}.

Definition lateral_inhibitory : Projection :=
  {| src := "V1"; dest := "V1"; name := "LateralInhibitory";
     delay := 0.05; strength := Some (- 1.0 * inh_strength p);
     connection_type := CFProjection;
     dest_port := []; activity_group := None;
     nominal_bounds_template := 0.22917;
     weights_generator := GaussianCloud 0.15;
     learning_rate := Some (LrConst (inh_lr p)); seed := None;
     response_fn := None; learning_fn := None |}.

(** Lines 234-273. *)
Definition create_connections : Script unit :=
  for_each eyes (fun e =>
    for_each center_polarities (fun l =>
      command (connect (retina_to_lgn e l));;
      when (gain_control p)
        (for_each eyes (fun e2 => command (connect (lateral_gc e l e2))));;
      command (connect (lgn_to_V1 e l))));;
  command (connect lateral_excitatory);;
  command (connect lateral_inhibitory).

(** Lines 277-289; [/] on ints is floor division. *)
Definition vs : list (option string) :=
  replicate (Z.to_nat (num_aff - 1)) None ++ [Some "V1"]
    ++ replicate (Z.to_nat num_aff) None.

Definition ls : list (option string) :=
  flat_map (fun e =>
    flat_map (fun l => [Some (e +:+ "LGN" +:+ l); None]) center_polarities)
    eyes.

Definition es : list (option string) :=
  flat_map (fun e =>
    replicate (Z.to_nat (len center_polarities / 2)) None
      ++ [Some (e +:+ "Retina"); None]
      ++ replicate (Z.to_nat (len center_polarities / 2)) None)
    eyes.

Definition layout : Command :=
  grid_layout [vs; ls; es] (70 / len eyes)%Z 200 (0.6 / inject_Z (len eyes)).

(** Lines 295-301. *)
Definition preference_maps : list (string * list string) :=
  [ ("od", ["Ocular Preference"]);
    ("or", ["Orientation Preference"]);
    ("dy", ["PhaseDisparity Preference"]) ].

Definition pgs : list string :=
  concat (map snd (List.filter (fun nm => has_dim (fst nm)) preference_maps))
    ++ ["Position Preference"; "Activity"].

(** Lines 303-313. *)
Definition analysis_defaults : Script unit :=
  emit (EvPlotgroups pgs);;
  set_class_obj "MeasureResponseCommand" "durations"
    (VNums [if gain_control p then 1.0 else 0.175]);;
  set_class_obj "MeasureResponseCommand.pattern_response_fn" "apply_output_fns"
    (VBool (gain_control p));;
  set_class_attr "FeatureMaps" "selectivity_multiplier" 2.0.

(** Lines 111-116. *)
Definition projection_defaults : Script unit :=
  set_class_obj "CFProjection" "cf_shape" (VObj "pattern.Disk");;
  set_class_obj "CFProjection" "weights_generator" (VObj "pattern.Constant");;
  set_class_obj "CFProjection" "response_fn" (VObj "CFPRF_DotProduct_opt");;
  set_class_obj "CFProjection" "learning_fn" (VObj "CFPLF_Hebbian_opt");;
  set_class_obj "CFProjection" "weights_output_fns"
    (VObj "CFPOF_DivisiveNormalizeL1_opt");;
  set_class_obj "SharedWeightCFProjection" "response_fn"
    (VObj "CFPRF_DotProduct_opt").

(** The whole script, top to bottom. *)
Definition gcal_od : Script unit :=
  emit (EvParamAdd declared);;
  projection_defaults;;
  emit (EvSimName sim_name);;
  emit (EvSeed 500 500);;
  create_subcortical_sheets;;
  create_V1;;
  create_connections;;
  command layout;;
  analysis_defaults.

Definition trace : list Event := trace_of gcal_od.
End Script.

End GcalOd.

(** * doc/Tutorials/som_retinotopy.ipynb *)

Module SomRetinotopy.

Record Params := {
  retina_density : Q;
  cortex_density : Q;
  input_seed : Q;
  weight_seed : Q;
  radius_0 : Q;
  alpha_0 : Q
}.

Definition decl n d b ib : ParamDecl :=
  {| pname := n; pkind := Number; pdefault := DNum d; bounds := b;
     inclusive_bounds := ib |}.

Definition lower0 : option (option Q * option Q) := Some (Some 0, None).

(** The arguments of [p.add(...)] in the second code cell. *)
Definition declared : list ParamDecl :=
  [ decl "retina_density" 10.0 lower0 (Some (false, true));
    decl "cortex_density" 10.0 lower0 (Some (false, true));
    decl "input_seed" 0 lower0 None;
    decl "weight_seed" 0 lower0 None;
    decl "radius_0" 1.0 lower0 None;
    decl "alpha_0" 0.42 lower0 None ].

Definition defaults : Params :=
  {| retina_density := 10.0; cortex_density := 10.0; input_seed := 0;
     weight_seed := 0; radius_0 := 1.0; alpha_0 := 0.42 |}.

(** Third code cell: [p.retina_density=10; p.cortex_density=10]. *)
Definition customize (p : Params) : Params :=
  {| retina_density := 10; cortex_density := 10;
     input_seed := input_seed p; weight_seed := weight_seed p;
     radius_0 := radius_0 p; alpha_0 := alpha_0 p |}.

Section Notebook.
Variable p0 : Params.

Definition p : Params := customize p0.

Definition input_pattern : PatternGenerator :=
  Gaussian
    (UniformRandom (- 0.5) 0.5 (input_seed p))
    (UniformRandom (- 0.5) 0.5 (input_seed p))
    (Num 0)
    (SizeSqrt 2 (2.0 * 0.1 * 24.0) 24.0)
    1.0
    (Num 1.0).

Definition V1_sheet : Sheet :=
  {| sheet_class := CFSheet;
     nominal_density := Some (cortex_density p);
     nominal_bounds := None;
     input_generator := None; period := None; phase := None;
     row_precedence := None; measure_maps := None;
     tsettle := None; strict_tsettle := None; plastic := None;
     output_fns :=
       [KernelMax (cortex_density p)
          (BoundedNumber (0.5 / 40)
             (ExponentialDecay (radius_0 p) (40000 / 5.0)))] |}.

Definition afferent : Projection :=
  {| src := "Retina"; dest := "V1"; name := "Afferent";
     delay := 0.05; strength := None;
     connection_type := CFProjection;
     dest_port := []; activity_group := None;
     nominal_bounds_template := 1.0;
     weights_generator := UniformRandomWeights;
     learning_rate :=
       Some (LrSchedule (ExponentialDecay (alpha_0 p) (40000 / 6.0)));
     seed := Some (weight_seed p);
     response_fn := Some CFPRF_EuclideanDistance_opt;
     learning_fn := Some CFPLF_EuclideanHebbian |}.

(** Fourth code cell: the model definition. *)
Definition model_definition : Script unit :=
  set_class_obj "param.Dynamic" "time_dependent" (VBool true);;
  set_class_obj "numbergen.TimeAwareRandomState" "time_dependent" (VBool true);;
  set_class_attr "GeneratorSheet" "period" 1.0;;
  set_class_attr "GeneratorSheet" "phase" 0.05;;
  set_class_attr "GeneratorSheet" "nominal_density" (retina_density p);;
  retina ← new_GeneratorSheet
             {| sheet_class := GeneratorSheet;
                nominal_density := None; nominal_bounds := None;
                input_generator := Some input_pattern;
                period := None; phase := None;
                row_precedence := None; measure_maps := None;
                tsettle := None; strict_tsettle := None; plastic := None;
                output_fns := [] |};
  register "Retina" retina;;
  register "V1" V1_sheet;;
  command (connect afferent);;
  emit (EvDisplay "'Loaded the self-organizing map model (som_retinotopy)'").

(** The cells after the model definition, up to the first training
    iterations. *)
Definition initial_exploration : Script unit :=
  command (grid "V1" "Afferent");;
  command measure_cog;;
  emit (EvDisplay "cog_data.CoG.Afferent");;
  emit (EvDisplay "xcog + ycog + xcog*ycog");;
  emit (EvDisplay "xcog.data.min(),xcog.data.max(),ycog.data.min(),ycog.data.max()");;
  command (anim 30 0.05);;
  command new_Collector;;
  command (collect "measure_cog");;
  command (collect "topo.sim.Retina");;
  command (collect "topo.sim.V1");;
  command (collect "topo.sim.V1.Afferent");;
  command (collect "topo.sim.V1.Afferent, grid=True, rows=10, cols=10");;
  command (call_Collector (TimesList [1%Z]));;
  emit (EvDisplay "data.Activity.Retina + data.Activity.V1");;
  emit (EvDisplay "data.Activity.V1Afferent");;
  emit (EvDisplay "data.CFs.Afferent").

Definition training : Script unit :=
  command (run 4);;
  command (grid "V1" "Afferent");;
  command (projection_view "V1" "Afferent");;
  command (run 245);;
  for_each (range 1 21) (fun _ => command sim_time);;
  command (call_Collector (TimesOfSimTime (range 1 21)));;
  emit (EvDisplay "data.CoG.Afferent");;
  emit (EvMagic "%%opts Image {-axiswise}");;
  emit (EvDisplay "(data.XCoG.Afferent + data.YCoG.Afferent + data.XCoG.Afferent * data.YCoG.Afferent).select(Time=5000)");;
  emit (EvDisplay "data.CFs.Afferent.last");;
  command (call_Collector
             (TimesList (map (fun i => 5000 + 250 * i)%Z (range 1 21))));;
  emit (EvDisplay "data.CoG.Afferent.last");;
  emit (EvDisplay "topo.sim.V1.output_fns[0].kernel_radius");;
  emit (EvDisplay "data.CFs.Afferent.last");;
  command (call_Collector
             (TimesList (map (fun i => 10000 + 500 * i)%Z (range 1 41))));;
  emit (EvDisplay "data.CoG.Afferent.last");;
  emit (EvDisplay "topo.sim.V1.output_fns[0].kernel_radius");;
  emit (EvDisplay "data.CFs.Afferent.last");;
  emit (EvMagic "%%opts Gravity_Contours [rescale_individually=False]");;
  emit (EvDisplay "data.CoG.Afferent");;
  emit (EvDisplay "data.XCoG.Afferent + data.YCoG.Afferent + data.XCoG.Afferent * data.YCoG.Afferent");;
  emit (EvDisplay "data.CFs.Afferent.last");;
  emit (EvDisplay "data.Activity.Retina + data.Activity.V1");;
  emit (EvMagic "%timer").

(** The notebook, cell by cell. *)
Definition notebook : Script unit :=
  emit (EvMagic "%reload_ext topo.misc.ipython");;
  emit (EvMagic "%opts GridSpace [tick_format=%.1f figure_size=70]");;
  emit (EvMagic "%timer start");;
  set_class_obj "pattern_response" "progress_bar" (VBool false);;
  emit (EvParamAdd declared);;
  emit (EvParamSet "retina_density" 10);;
  emit (EvParamSet "cortex_density" 10);;
  model_definition;;
  initial_exploration;;
  training.

Definition trace : list Event := trace_of notebook.
End Notebook.

End SomRetinotopy.

(** * Observations on a trace *)

Definition is_run (ev : Event) : bool :=
  match ev with
  | EvCommand (run _) => true
  | _ => false
  end.

Definition is_connect (ev : Event) : bool :=
  match ev with
  | EvCommand (connect _) => true
  | _ => false
  end.

Definition is_register (ev : Event) : bool :=
  match ev with
  | EvRegister _ _ => true
  | _ => false
  end.

(** Sheet creations and [connect] calls: the model set-up. *)
Definition is_setup (ev : Event) : bool := is_register ev || is_connect ev.

(** The keys assigned into [topo.sim], in program order. *)
Fixpoint registered (t : list Event) : list string :=
  match t with
  | [] => []
  | EvRegister k _ :: t' => k :: registered t'
  | _ :: t' => registered t'
  end.

(** The sheets assigned into [topo.sim], with their keys. *)
Fixpoint registrations (t : list Event) : list (string * Sheet) :=
  match t with
  | [] => []
  | EvRegister k s :: t' => (k, s) :: registrations t'
  | _ :: t' => registrations t'
  end.

(** The framework commands issued, in program order. *)
Fixpoint commands (t : list Event) : list Command :=
  match t with
  | [] => []
  | EvCommand c :: t' => c :: commands t'
  | _ :: t' => commands t'
  end.

(** The values assigned to [default_analysis_plotgroups], in program order. *)
Fixpoint plotgroups (t : list Event) : list (list string) :=
  match t with
  | [] => []
  | EvPlotgroups l :: t' => l :: plotgroups t'
  | _ :: t' => plotgroups t'
  end.

(** The projections created by [topo.sim.connect], in program order. *)
Fixpoint connections (t : list Event) : list Projection :=
  match t with
  | [] => []
  | EvCommand (connect pr) :: t' => pr :: connections t'
  | _ :: t' => connections t'
  end.

(** [topo.sim] as a dictionary after the trace has run. *)
Definition assign (m : gmap string Sheet) (ev : Event) : gmap string Sheet :=
  match ev with
  | EvRegister k s => <[k := s]> m
  | _ => m
  end.

Definition registry (t : list Event) : gmap string Sheet := foldl assign ∅ t.

(** The set of sheets registered in [topo.sim]. *)
Definition sheets (t : list Event) : gset string := dom (registry t).

(** A connection is identified by its source, destination and name. *)
Definition wire (pr : Projection) : string * string * string :=
  (src pr, dest pr, name pr).

(** The set of connections created. *)
Definition wiring (t : list Event) : gset (string * string * string) :=
  list_to_set (map wire (connections t)).

(** Every [connect] names sheets that are among [seen] or were registered
    earlier in [t]. *)
Fixpoint connects_registered (seen : list string) (t : list Event) : bool :=
  match t with
  | [] => true
  | EvRegister k _ :: t' => connects_registered (k :: seen) t'
  | EvCommand (connect pr) :: t' =>
      bool_decide (src pr ∈ seen) && bool_decide (dest pr ∈ seen)
      && connects_registered seen t'
  | _ :: t' => connects_registered seen t'
  end.

(** No set-up statement follows a [run]. *)
Fixpoint run_after_setup (t : list Event) : bool :=
  match t with
  | [] => true
  | ev :: t' =>
      (if is_run ev then forallb (fun ev' => negb (is_setup ev')) t' else true)
      && run_after_setup t'
  end.

Definition command_name (c : Command) : string :=
  match c with
  | connect _ => "connect"
  | run _ => "run"
  | grid_layout _ _ _ _ => "grid_layout"
  | measure_cog => "measure_cog"
  | grid _ _ => "grid"
  | projection_view _ _ => "projection_view"
  | anim _ _ => "anim"
  | new_Collector => "Collector"
  | collect _ => "collect"
  | call_Collector _ => "Collector.__call__"
  | sim_time => "time"
  end.

(** The set of commands a trace issues. *)
Definition commands_used (t : list Event) : gset string :=
  list_to_set (map command_name (commands t)).

(** [sub] occurs in [s]. *)
Definition contains (sub s : string) : bool :=
  match index 0 sub s with
  | Some _ => true
  | None => false
  end.

(** * Predicates and values used in the statements *)

(** [l] if [d] is one of [p.dims], nothing otherwise. *)
Definition when_dim (p : GcalOd.Params) (d : string) (l : list string) : list string :=
  if bool_decide (d ∈ GcalOd.dims p) then l else [].

(** Sheets are told apart by their keys, projections by the sheets they
    link. *)
Definition is_retina (k : string) : bool := contains "Retina" k.
Definition is_lgn (k : string) : bool := contains "LGN" k.
Definition is_V1 (k : string) : bool := String.eqb k "V1".

Definition retina_to_lgn_wire (pr : Projection) : bool :=
  is_retina (src pr) && is_lgn (dest pr).
Definition lgn_to_V1_wire (pr : Projection) : bool :=
  is_lgn (src pr) && is_V1 (dest pr).
Definition V1_lateral_wire (pr : Projection) : bool :=
  is_V1 (src pr) && is_V1 (dest pr).
Definition lgn_lateral_wire (pr : Projection) : bool :=
  is_lgn (src pr) && is_lgn (dest pr).

Definition count_sheets (f : string -> bool) (t : list Event) : Z :=
  len (List.filter f (registered t)).

Definition count_connections (f : Projection -> bool) (t : list Event) : Z :=
  len (List.filter f (connections t)).

(** At every [topo.sim.connect] in [t], both sheet names have been assigned
    into [topo.sim] by an earlier statement of [t]. *)
Definition connects_in_scope (t : list Event) : Prop :=
  forall (i : nat) (pr : Projection),
    t !! i = Some (EvCommand (connect pr)) ->
    src pr ∈ registered (take i t) /\ dest pr ∈ registered (take i t).

Definition is_generator_sheet (s : Sheet) : bool :=
  match sheet_class s with
  | GeneratorSheet => true
  | _ => false
  end.

(** The GeneratorSheets a trace registers. *)
Definition generator_sheets (t : list Event) : list Sheet :=
  List.filter is_generator_sheet (map snd (registrations t)).

Definition delay_is (d : Q) (pr : Projection) : Prop := delay pr = d.

Definition period_phase_are (pe ph : Q) (s : Sheet) : Prop :=
  period s = Some pe /\ phase s = Some ph.

(** The defaults with a single stimulus dimension. *)
Definition monocular : GcalOd.Params :=
  {| GcalOd.dataset := GcalOd.DsGaussian; GcalOd.num_inputs := 2;
     GcalOd.dims := ["or"];
     GcalOd.area := 1.0; GcalOd.gain_control := true;
     GcalOd.retina_density := 24.0; GcalOd.lgn_density := 24.0;
     GcalOd.cortex_density := 48.0; GcalOd.dim_fraction := 0.7;
     GcalOd.max_disparity := 4.0; GcalOd.aff_strength := 1.0;
     GcalOd.exc_strength := 1.7; GcalOd.inh_strength := 1.4;
     GcalOd.aff_lr := 0.1; GcalOd.exc_lr := 0.0; GcalOd.inh_lr := 0.3 |}.

(** The defaults without gain control. *)
Definition no_gain_control : GcalOd.Params :=
  {| GcalOd.dataset := GcalOd.DsGaussian; GcalOd.num_inputs := 2;
     GcalOd.dims := ["or"; "od"];
     GcalOd.area := 1.0; GcalOd.gain_control := false;
     GcalOd.retina_density := 24.0; GcalOd.lgn_density := 24.0;
     GcalOd.cortex_density := 48.0; GcalOd.dim_fraction := 0.7;
     GcalOd.max_disparity := 4.0; GcalOd.aff_strength := 1.0;
     GcalOd.exc_strength := 1.7; GcalOd.inh_strength := 1.4;
     GcalOd.aff_lr := 0.1; GcalOd.exc_lr := 0.0; GcalOd.inh_lr := 0.3 |}.

(** Natural images on a larger and denser model, with other strengths and
    learning rates; the same two switches as the defaults. *)
Definition nature_wide : GcalOd.Params :=
  {| GcalOd.dataset := GcalOd.DsNature; GcalOd.num_inputs := 3;
     GcalOd.dims := ["dy"];
     GcalOd.area := 2.0; GcalOd.gain_control := true;
     GcalOd.retina_density := 48.0; GcalOd.lgn_density := 12.0;
     GcalOd.cortex_density := 96.0; GcalOd.dim_fraction := 0.5;
     GcalOd.max_disparity := 0.0; GcalOd.aff_strength := 2.0;
     GcalOd.exc_strength := 1.0; GcalOd.inh_strength := 2.0;
     GcalOd.aff_lr := 0.2; GcalOd.exc_lr := 0.1; GcalOd.inh_lr := 0.0 |}.

Definition invokes_run (t : list Event) : bool := existsb is_run t.

(** The durations passed to [topo.sim.run], in program order. *)
Fixpoint runs (t : list Event) : list Q :=
  match t with
  | [] => []
  | EvCommand (run d) :: t' => d :: runs t'
  | _ :: t' => runs t'
  end.

(** Every sheet creation and every [connect] comes before every [run]. *)
Definition runs_follow_setup (t : list Event) : Prop :=
  forall (i j : nat) (r s : Event),
    t !! i = Some r -> is_run r = true ->
    t !! j = Some s -> is_setup s = true ->
    (j < i)%nat.

(** The four commands the specification names. *)
Definition named_commands : list string :=
  ["run"; "connect"; "measure_cog"; "grid_layout"].

Definition only_named_commands (t : list Event) : Prop :=
  Forall (fun c => command_name c ∈ named_commands) (commands t).

(** The declarations handed to [p.add], in program order. *)
Fixpoint param_adds (t : list Event) : list (list ParamDecl) :=
  match t with
  | [] => []
  | EvParamAdd ds :: t' => ds :: param_adds t'
  | _ :: t' => param_adds t'
  end.

(** The assignments [p.name = v] a trace makes, in program order. *)
Fixpoint param_sets (t : list Event) : list (string * Q) :=
  match t with
  | [] => []
  | EvParamSet n v :: t' => (n, v) :: param_sets t'
  | _ :: t' => param_sets t'
  end.

(** A declaration carries a bound: [bounds=(lo,hi)] with [lo] or [hi] set. *)
Definition has_bound (d : ParamDecl) : bool :=
  match bounds d with
  | Some (Some _, _) | Some (_, Some _) => true
  | _ => false
  end.

Definition numeric_is_bounded (d : ParamDecl) : bool :=
  if is_numeric (pkind d) then has_bound d else true.

Definition numeric_params (ds : list ParamDecl) : list string :=
  map pname (List.filter (fun d => is_numeric (pkind d)) ds).

(** The value of the [scale] of the [k]-th pattern of [gens] at a
    presentation where the random streams yield [draw]. *)
Definition eye_scale (draw : Q -> Q) (gens : list PatternGenerator) (k : nat)
  : option Q :=
  g ← gens !! k;
  s ← pattern_scale g;
  Some (eval draw s).

(** A stream yields numbers of the unit interval. *)
Definition unit_draws (draw : Q -> Q) : Prop := forall s, 0 <= draw s <= 1.

(** The brightness draw of the [i]-th Gaussian: seed [input_seed+5+6*i]. *)
Definition gaussian_brightness (draw : Q -> Q) (i : Z) : Q :=
  eval draw (GcalOd.uniform 0 2 (GcalOd.input_seed + 5 + 6 * i)).

(** The brightness draw of the [i]-th image: seed [input_seed+4+5*i]. *)
Definition nature_brightness (draw : Q -> Q) (i : Z) : Q :=
  eval draw (GcalOd.uniform 0 2 (GcalOd.input_seed + 4 + 5 * i)).

(** The retina of eye [e] is registered with the patterns that the loop
    built for [e] as its input generator. *)
Definition retina_fed (p : GcalOd.Params) (e : string) : Prop :=
  input_generator <$> (registry (GcalOd.trace p) !! (e +:+ "Retina"))
  = Some (Some (GcalOd.combined_inputs p e))
  /\ generators_of (GcalOd.combined_inputs p e) = GcalOd.inputs p e.

(** Every stream in the middle of its range. *)
Definition half_draw : Q -> Q := fun _ => 1 # 2.

(** Every stream at the bottom of its range. *)
Definition zero_draw : Q -> Q := fun _ => 0.

(** The sum of the two eyes' scales for the [k]-th pattern. *)
Definition scale_sum (draw : Q -> Q) (p : GcalOd.Params) (k : nat) : option Q :=
  l ← eye_scale draw (GcalOd.inputs p "Left") k;
  r ← eye_scale draw (GcalOd.inputs p "Right") k;
  Some (l + r).

(** [o] holds a number equal to [v]. *)
Definition holds (o : option Q) (v : Q) : Prop :=
  match o with
  | Some q => q == v
  | None => False
  end.

(** ** The scale expression in exact and in binary64 arithmetic *)

(** The operations an expression over floats uses. *)
Class Arith (A : Type) := {
  a_lit : Q -> A;
  a_add : A -> A -> A;
  a_sub : A -> A -> A;
  a_mul : A -> A -> A
}.

#[global] Instance exact_arith : Arith Q :=
  {| a_lit := fun q => q; a_add := Qplus; a_sub := Qminus; a_mul := Qmult |}.

#[global] Instance binary64_arith : Arith spec_float :=
  {| a_lit := Binary64.of_Q; a_add := Binary64.add; a_sub := Binary64.sub;
     a_mul := Binary64.mul |}.

(** [random.uniform(lbound, ubound)] where the stream yields the number [r]
    of the unit interval: [lbound + (ubound-lbound)*r]. *)
Definition uniform_value {A} `{Arith A} (lb ub r : A) : A :=
  a_add lb (a_mul (a_sub ub lb) r).

(** Lines 161-163 at the brightness [u]:
    [(1-p.dim_fraction) + p.dim_fraction*((2.0-u) if e=='Right' else u)]. *)
Definition gaussian_scale {A} `{Arith A} (df : A) (e : string) (u : A) : A :=
  a_add (a_sub (a_lit 1) df)
        (a_mul df (if String.eqb e "Right" then a_sub (a_lit 2.0) u else u)).

(** The brightness [UniformRandom(lbound=0,ubound=2)] in binary64 where the
    stream yields [r]. *)
Definition brightness64 (r : Q) : spec_float :=
  uniform_value (a_lit 0) (a_lit 2) (Binary64.of_Q r).

(** The sum of the two eyes' scales in binary64. *)
Definition scale_sum64 (df r : Q) : spec_float :=
  a_add (gaussian_scale (Binary64.of_Q df) "Left" (brightness64 r))
        (gaussian_scale (Binary64.of_Q df) "Right" (brightness64 r)).

(** ** What is handed to the framework *)

(** Key, density and bounds radius of every sheet a trace registers. *)
Definition sheet_numbers (t : list Event) : list (string * option Q * option Q) :=
  map (fun ks => (ks.1, nominal_density ks.2, nominal_bounds ks.2))
      (registrations t).

(** Source, name, strength and learning rate of every projection a trace
    creates. *)
Definition connect_numbers (t : list Event)
  : list (string * string * option Q * option LearningRate) :=
  map (fun pr => (src pr, name pr, strength pr, learning_rate pr))
      (connections t).

(** * Further observations *)

(** The object grids passed to [topo.sim.grid_layout], in program order. *)
Fixpoint grids (t : list Event) : list (list (list (option string))) :=
  match t with
  | [] => []
  | EvCommand (grid_layout g _ _ _) :: t' => g :: grids t'
  | _ :: t' => grids t'
  end.

(** The names a grid shows; [None] cells are empty. *)
Definition grid_names (g : list (list (option string))) : list string :=
  omap id (concat g).

(** ** Names in scope *)

Section Scope.
Context {K : Type} `{EqDecision K}.

(** [defs ev] are the names statement [ev] introduces, [refs ev] the names
    it uses. *)
Variables (defs refs : Event -> list K).

(** Every name a statement of [t] uses is among [seen] or was introduced
    by an earlier statement of [t]. *)
Fixpoint scoped (seen : list K) (t : list Event) : bool :=
  match t with
  | [] => true
  | ev :: t' =>
      forallb (fun k => bool_decide (k ∈ seen)) (refs ev)
      && scoped (defs ev ++ seen) t'
  end.

Definition in_scope (t : list Event) : Prop :=
  forall (i : nat) (ev : Event) (k : K),
    t !! i = Some ev -> k ∈ refs ev -> k ∈ flat_map defs (take i t).

End Scope.

(** [topo.sim[key] = ...] introduces the sheet [key]. *)
Definition sheet_defs (ev : Event) : list string :=
  match ev with
  | EvRegister k _ => [k]
  | _ => []
  end.

(** The sheets a command names. *)
Definition sheet_refs (ev : Event) : list string :=
  match ev with
  | EvCommand (connect pr) => [src pr; dest pr]
  | EvCommand (grid_layout g _ _ _) => grid_names g
  | EvCommand (grid s _) => [s]
  | EvCommand (projection_view s _) => [s]
  | _ => []
  end.

(** [connect] introduces the projection [name] of sheet [dest]. *)
Definition projection_defs (ev : Event) : list (string * string) :=
  match ev with
  | EvCommand (connect pr) => [(dest pr, name pr)]
  | _ => []
  end.

(** [topo.sim.<sheet>.<proj>.grid()] and [.projection_view()] use a
    projection. *)
Definition projection_refs (ev : Event) : list (string * string) :=
  match ev with
  | EvCommand (grid s pj) => [(s, pj)]
  | EvCommand (projection_view s pj) => [(s, pj)]
  | _ => []
  end.

(** The stage of model construction a statement belongs to: creating
    sheets, connecting them, laying them out. *)
Definition stage (ev : Event) : option nat :=
  match ev with
  | EvRegister _ _ => Some 0%nat
  | EvCommand (connect _) => Some 1%nat
  | EvCommand (grid_layout _ _ _ _) => Some 2%nat
  | _ => None
  end.

(** The projections of a trace by destination sheet and name. *)
Definition projection_keys (t : list Event) : list (string * string) :=
  map (fun pr => (dest pr, name pr)) (connections t).

(** ** Strengths and connection fields *)

(** The summed strength of the projections selected by [f] that end in
    sheet [k]. *)
Definition incoming_strength (f : Projection -> bool) (k : string)
    (t : list Event) : Q :=
  foldr Qplus 0
    (omap strength
       (List.filter (fun pr => f pr && String.eqb (dest pr) k) (connections t))).

(** The strengths of the projections selected by [f] that end in sheet
    [k], in program order. *)
Definition strengths_into (f : Projection -> bool) (k : string)
    (t : list Event) : list (option Q) :=
  map strength
      (List.filter (fun pr => f pr && String.eqb (dest pr) k) (connections t)).

(** Source, destination and strength of the projections selected by [f]. *)
Definition strengths_between (f : Projection -> bool) (t : list Event)
  : list (string * string * option Q) :=
  map (fun pr => (src pr, dest pr, strength pr)) (List.filter f (connections t)).

(** Lines 219-228: the Gaussians of the fixed LGN weights, by their
    [size]; both have [aspect_ratio=1.0] and are L1-normalised. *)
Inductive Kernel := centerg | surroundg.

Definition kernel_size (g : Kernel) : Q :=
  match g with
  | centerg => 0.07385
  | surroundg => 0.29540
  end.

(** The [generators] of the two [pattern.Composite] weight patterns, in the
    order written; both use [operator=numpy.subtract]. *)
Definition composite_generators (w : WeightsGenerator) : list Kernel :=
  match w with
  | on_weights => [centerg; surroundg]
  | off_weights => [surroundg; centerg]
  | _ => []
  end.

(** [numpy.subtract.reduce]: the first value minus all the others. *)
Definition subtract_reduce (vals : list Q) : option Q :=
  match vals with
  | [] => None
  | v :: vs => Some (foldl Qminus v vs)
  end.

(** The value of a composite weight pattern at a point where its
    generators take the values [at_point]. *)
Definition composite_value (at_point : Kernel -> Q) (w : WeightsGenerator)
  : option Q :=
  subtract_reduce (map at_point (composite_generators w)).

(** ** Positions of the input patterns *)

Definition pattern_x (g : PatternGenerator) : option NumberGenerator :=
  match g with
  | Gaussian x _ _ _ _ _ => Some x
  | FileImage _ _ _ x _ _ _ => Some x
  | _ => None
  end.

Definition pattern_y (g : PatternGenerator) : option NumberGenerator :=
  match g with
  | Gaussian _ y _ _ _ _ => Some y
  | FileImage _ _ _ _ y _ _ => Some y
  | _ => None
  end.

Definition pattern_orientation (g : PatternGenerator) : option NumberGenerator :=
  match g with
  | Gaussian _ _ o _ _ _ => Some o
  | FileImage _ _ _ _ _ o _ => Some o
  | _ => None
  end.

(** [x + d*(-1)**(e=='Left')] at a position [x] and a disparity [d]. *)
Definition shifted_x {A} `{Arith A} (e : string) (x d : A) : A :=
  a_add x (a_mul d (a_lit (if String.eqb e "Left" then -1 else 1))).

(** ** Parameters with one value replaced *)

Definition with_max_disparity (v : Q) (p : GcalOd.Params) : GcalOd.Params :=
  {| GcalOd.dataset := GcalOd.dataset p; GcalOd.num_inputs := GcalOd.num_inputs p;
     GcalOd.dims := GcalOd.dims p; GcalOd.area := GcalOd.area p;
     GcalOd.gain_control := GcalOd.gain_control p;
     GcalOd.retina_density := GcalOd.retina_density p;
     GcalOd.lgn_density := GcalOd.lgn_density p;
     GcalOd.cortex_density := GcalOd.cortex_density p;
     GcalOd.dim_fraction := GcalOd.dim_fraction p;
     GcalOd.max_disparity := v;
     GcalOd.aff_strength := GcalOd.aff_strength p;
     GcalOd.exc_strength := GcalOd.exc_strength p;
     GcalOd.inh_strength := GcalOd.inh_strength p;
     GcalOd.aff_lr := GcalOd.aff_lr p; GcalOd.exc_lr := GcalOd.exc_lr p;
     GcalOd.inh_lr := GcalOd.inh_lr p |}.

Definition with_num_inputs (n : Z) (p : GcalOd.Params) : GcalOd.Params :=
  {| GcalOd.dataset := GcalOd.dataset p; GcalOd.num_inputs := n;
     GcalOd.dims := GcalOd.dims p; GcalOd.area := GcalOd.area p;
     GcalOd.gain_control := GcalOd.gain_control p;
     GcalOd.retina_density := GcalOd.retina_density p;
     GcalOd.lgn_density := GcalOd.lgn_density p;
     GcalOd.cortex_density := GcalOd.cortex_density p;
     GcalOd.dim_fraction := GcalOd.dim_fraction p;
     GcalOd.max_disparity := GcalOd.max_disparity p;
     GcalOd.aff_strength := GcalOd.aff_strength p;
     GcalOd.exc_strength := GcalOd.exc_strength p;
     GcalOd.inh_strength := GcalOd.inh_strength p;
     GcalOd.aff_lr := GcalOd.aff_lr p; GcalOd.exc_lr := GcalOd.exc_lr p;
     GcalOd.inh_lr := GcalOd.inh_lr p |}.

Definition with_dim_fraction (v : Q) (p : GcalOd.Params) : GcalOd.Params :=
  {| GcalOd.dataset := GcalOd.dataset p; GcalOd.num_inputs := GcalOd.num_inputs p;
     GcalOd.dims := GcalOd.dims p; GcalOd.area := GcalOd.area p;
     GcalOd.gain_control := GcalOd.gain_control p;
     GcalOd.retina_density := GcalOd.retina_density p;
     GcalOd.lgn_density := GcalOd.lgn_density p;
     GcalOd.cortex_density := GcalOd.cortex_density p;
     GcalOd.dim_fraction := v;
     GcalOd.max_disparity := GcalOd.max_disparity p;
     GcalOd.aff_strength := GcalOd.aff_strength p;
     GcalOd.exc_strength := GcalOd.exc_strength p;
     GcalOd.inh_strength := GcalOd.inh_strength p;
     GcalOd.aff_lr := GcalOd.aff_lr p; GcalOd.exc_lr := GcalOd.exc_lr p;
     GcalOd.inh_lr := GcalOd.inh_lr p |}.

(** The defaults with disparity as a third stimulus dimension. *)
Definition stereo : GcalOd.Params :=
  {| GcalOd.dataset := GcalOd.DsGaussian; GcalOd.num_inputs := 2;
     GcalOd.dims := ["or"; "od"; "dy"];
     GcalOd.area := 1.0; GcalOd.gain_control := true;
     GcalOd.retina_density := 24.0; GcalOd.lgn_density := 24.0;
     GcalOd.cortex_density := 48.0; GcalOd.dim_fraction := 0.7;
     GcalOd.max_disparity := 4.0; GcalOd.aff_strength := 1.0;
     GcalOd.exc_strength := 1.7; GcalOd.inh_strength := 1.4;
     GcalOd.aff_lr := 0.1; GcalOd.exc_lr := 0.0; GcalOd.inh_lr := 0.3 |}.

(** Natural images shown to a single eye. *)
Definition monocular_images : GcalOd.Params :=
  {| GcalOd.dataset := GcalOd.DsNature; GcalOd.num_inputs := 2;
     GcalOd.dims := ["or"];
     GcalOd.area := 1.0; GcalOd.gain_control := true;
     GcalOd.retina_density := 24.0; GcalOd.lgn_density := 24.0;
     GcalOd.cortex_density := 48.0; GcalOd.dim_fraction := 0.7;
     GcalOd.max_disparity := 4.0; GcalOd.aff_strength := 1.0;
     GcalOd.exc_strength := 1.7; GcalOd.inh_strength := 1.4;
     GcalOd.aff_lr := 0.1; GcalOd.exc_lr := 0.0; GcalOd.inh_lr := 0.3 |}.

(** The defaults on a cortical area of half the linear size. *)
Definition small_area : GcalOd.Params :=
  {| GcalOd.dataset := GcalOd.DsGaussian; GcalOd.num_inputs := 2;
     GcalOd.dims := ["or"; "od"];
     GcalOd.area := 0.5; GcalOd.gain_control := true;
     GcalOd.retina_density := 24.0; GcalOd.lgn_density := 24.0;
     GcalOd.cortex_density := 48.0; GcalOd.dim_fraction := 0.7;
     GcalOd.max_disparity := 4.0; GcalOd.aff_strength := 1.0;
     GcalOd.exc_strength := 1.7; GcalOd.inh_strength := 1.4;
     GcalOd.aff_lr := 0.1; GcalOd.exc_lr := 0.0; GcalOd.inh_lr := 0.3 |}.

(** 125 inputs per unit area on an area of 1.4: [125*1.4*1.4] is 245 in
    exact arithmetic and 244.99999999999997 in binary64. *)
Definition many_inputs : GcalOd.Params :=
  {| GcalOd.dataset := GcalOd.DsGaussian; GcalOd.num_inputs := 125;
     GcalOd.dims := ["or"; "od"];
     GcalOd.area := 1.4; GcalOd.gain_control := true;
     GcalOd.retina_density := 24.0; GcalOd.lgn_density := 24.0;
     GcalOd.cortex_density := 48.0; GcalOd.dim_fraction := 0.7;
     GcalOd.max_disparity := 4.0; GcalOd.aff_strength := 1.0;
     GcalOd.exc_strength := 1.7; GcalOd.inh_strength := 1.4;
     GcalOd.aff_lr := 0.1; GcalOd.exc_lr := 0.0; GcalOd.inh_lr := 0.3 |}.

(** ** Random streams *)

(** The seeds of the random streams a number generator reads, left to
    right. *)
Fixpoint generator_seeds (g : NumberGenerator) : list Q :=
  match g with
  | Num _ => []
  | UniformRandom _ _ s => [s]
  | BinaryOperator _ a b => generator_seeds a ++ generator_seeds b
  end.

(** The seeds behind an input pattern: position, vertical position,
    orientation, scale. *)
Definition pattern_seeds (g : PatternGenerator) : list Q :=
  match g with
  | Gaussian x y o _ _ s =>
      generator_seeds x ++ generator_seeds y ++ generator_seeds o
        ++ generator_seeds s
  | FileImage _ _ _ x y o s =>
      generator_seeds x ++ generator_seeds y ++ generator_seeds o
        ++ generator_seeds s
  | _ => []
  end.

(** All seeds behind the patterns shown to eye [e]. *)
Definition input_seeds (p : GcalOd.Params) (e : string) : list Q :=
  flat_map pattern_seeds (GcalOd.inputs p e).

(** The notebook's defaults at the densities of its online version. *)
Definition full_density : SomRetinotopy.Params :=
  {| SomRetinotopy.retina_density := 24; SomRetinotopy.cortex_density := 40;
     SomRetinotopy.input_seed := 0; SomRetinotopy.weight_seed := 0;
     SomRetinotopy.radius_0 := 1.0; SomRetinotopy.alpha_0 := 0.42 |}.

(** The [xstep] and [item_scale] passed to [topo.sim.grid_layout], with
    the number of columns of the grid. *)
Fixpoint layout_scales (t : list Event) : list (Z * Q * Z) :=
  match t with
  | [] => []
  | EvCommand (grid_layout g xstep _ item_scale) :: t' =>
      (xstep, item_scale, len (concat (take 1 g))) :: layout_scales t'
  | _ :: t' => layout_scales t'
  end.

(** What [connect] passes for the projections selected by [f]: strength,
    learning rate and destination port. *)
Definition connect_settings (f : Projection -> bool) (t : list Event)
  : list (option Q * option LearningRate * list string) :=
  map (fun pr => (strength pr, learning_rate pr, dest_port pr))
      (List.filter f (connections t)).

(** * Generic facts about traces *)

Lemma registry_fold_dom t : forall m : gmap string Sheet,
  dom (foldl assign m t) = dom m ∪ list_to_set (registered t).
Proof.
  induction t as [|ev t IH]; intros m; simpl.
  - set_solver.
  - destruct ev; rewrite IH; try reflexivity.
    simpl. rewrite dom_insert_L. set_solver.
Qed.

Lemma sheets_registered t : sheets t = list_to_set (registered t).
Proof.
  unfold sheets, registry. rewrite registry_fold_dom. set_solver.
Qed.

(** * Properties of [gcal_od.ty] *)

Lemma eyes_cases (p : GcalOd.Params) :
  (GcalOd.two_eyes p = true /\ GcalOd.eyes p = ["Left"; "Right"])
  \/ (GcalOd.two_eyes p = false /\ GcalOd.eyes p = [EmptyString]).
Proof.
  unfold GcalOd.eyes. destruct (GcalOd.two_eyes p); [left | right]; split; reflexivity.
Qed.

Lemma has_dim_spec (p : GcalOd.Params) (d : string) :
  GcalOd.has_dim p d = true <-> d ∈ GcalOd.dims p.
Proof.
  unfold GcalOd.has_dim. rewrite bool_decide_eq_true. reflexivity.
Qed.

Lemma two_eyes_spec (p : GcalOd.Params) :
  GcalOd.two_eyes p = true <-> "od" ∈ GcalOd.dims p \/ "dy" ∈ GcalOd.dims p.
Proof.
  unfold GcalOd.two_eyes. rewrite orb_true_iff, !has_dim_spec. reflexivity.
Qed.

(** Expose every place where the script looks at [eyes] or at
    [p.gain_control], and split on the two values of each. *)
Ltac expose_script :=
  unfold GcalOd.trace, GcalOd.gcal_od, GcalOd.create_subcortical_sheets,
    GcalOd.create_connections, GcalOd.layout, GcalOd.vs, GcalOd.ls,
    GcalOd.es, GcalOd.num_aff, GcalOd.lateral_gc, GcalOd.lgn_sheet,
    GcalOd.lgn_to_V1, GcalOd.analysis_defaults.

(** The number of Gaussians is a binary64 computation on the parameters;
    it is kept as a number rather than evaluated symbolically. *)
Ltac abstract_count p :=
  unfold GcalOd.retina_args, GcalOd.combined_inputs, GcalOd.inputs,
    GcalOd.gaussian_inputs;
  let n := fresh "count" in
  generalize (GcalOd.total_num_inputs p); intros n.

Ltac script_cases p :=
  expose_script; abstract_count p;
  let E := fresh "Heyes" in
  let G := fresh "Hgc" in
  destruct (eyes_cases p) as [[E ->] | [E ->]];
  destruct (GcalOd.gain_control p) eqn:G.

Ltac by_script_cases p := script_cases p; vm_compute; reflexivity.

Lemma gcal_registered (p : GcalOd.Params) :
  registered (GcalOd.trace p)
  = flat_map (fun e => (e +:+ "Retina")
                         :: map (fun l => e +:+ "LGN" +:+ l) GcalOd.center_polarities)
             (GcalOd.eyes p)
    ++ ["V1"].
Proof. by_script_cases p. Qed.

Lemma gcal_wires (p : GcalOd.Params) :
  map wire (connections (GcalOd.trace p))
  = flat_map (fun e =>
      flat_map (fun l =>
        [(e +:+ "Retina", e +:+ "LGN" +:+ l, "Afferent")]
        ++ (if GcalOd.gain_control p
            then map (fun e2 => (e2 +:+ "LGN" +:+ l, e +:+ "LGN" +:+ l,
                                 e2 +:+ "LateralGC"))
                     (GcalOd.eyes p)
            else [])
        ++ [(e +:+ "LGN" +:+ l, "V1", e +:+ "LGN" +:+ l +:+ "Afferent")])
        GcalOd.center_polarities)
      (GcalOd.eyes p)
    ++ [("V1", "V1", "LateralExcitatory"); ("V1", "V1", "LateralInhibitory")].
Proof. by_script_cases p. Qed.

(** ** C10: the default analysis plot groups *)

(** C10. For every [p.dims], [pgs] lists 'Ocular Preference' exactly when
    'od' is in [p.dims], then 'Orientation Preference' exactly when 'or' is,
    then 'PhaseDisparity Preference' exactly when 'dy' is, and always ends
    with 'Position Preference' and 'Activity'; this list is the one value
    the script assigns to [topo.command.default_analysis_plotgroups]. *)
Theorem C10_default_analysis_plotgroups (p : GcalOd.Params) :
  GcalOd.pgs p
  = when_dim p "od" ["Ocular Preference"]
    ++ when_dim p "or" ["Orientation Preference"]
    ++ when_dim p "dy" ["PhaseDisparity Preference"]
    ++ ["Position Preference"; "Activity"]
  /\ plotgroups (GcalOd.trace p) = [GcalOd.pgs p].
Proof.
  split.
  - unfold GcalOd.pgs, when_dim, GcalOd.preference_maps, GcalOd.has_dim. simpl.
    destruct (bool_decide ("od" ∈ GcalOd.dims p)),
      (bool_decide ("or" ∈ GcalOd.dims p)),
      (bool_decide ("dy" ∈ GcalOd.dims p)); reflexivity.
  - by_script_cases p.
Qed.

Example pgs_default :
  GcalOd.pgs GcalOd.defaults
  = ["Ocular Preference"; "Orientation Preference"; "Position Preference"; "Activity"].
Proof. reflexivity. Qed.

(** ** C6: how many sheets and projections the script creates *)

Lemma eyes_by_dims (p : GcalOd.Params) :
  GcalOd.eyes p
  = if bool_decide ("od" ∈ GcalOd.dims p \/ "dy" ∈ GcalOd.dims p)
    then ["Left"; "Right"] else [EmptyString].
Proof.
  unfold GcalOd.eyes, GcalOd.two_eyes, GcalOd.has_dim.
  rewrite bool_decide_or. reflexivity.
Qed.

Lemma gcal_registered_NoDup (p : GcalOd.Params) : NoDup (registered (GcalOd.trace p)).
Proof.
  rewrite gcal_registered.
  destruct (eyes_cases p) as [[_ ->] | [_ ->]];
    apply (bool_decide_unpack _); vm_compute; exact I.
Qed.

(** C6. Whatever [p.dims] and [p.gain_control] are: [eyes] is
    ['Left','Right'] if 'od' or 'dy' is in [p.dims] and [''] otherwise; the
    script registers one V1 sheet, [len(eyes)] retinas and [2*len(eyes)] LGN
    sheets, under distinct keys and nothing else; it creates [2*len(eyes)]
    retina-to-LGN projections, [num_aff = 2*len(eyes)] LGN-to-V1
    projections, two V1 lateral projections and, with gain control,
    [2*len(eyes)^2] lateral connections among the LGN sheets (none
    without), and no other connection. *)
Theorem C6_sheet_and_projection_counts (p : GcalOd.Params) :
  let t := GcalOd.trace p in
  let n := len (GcalOd.eyes p) in
  GcalOd.eyes p
    = (if bool_decide ("od" ∈ GcalOd.dims p \/ "dy" ∈ GcalOd.dims p)
       then ["Left"; "Right"] else [EmptyString])
  /\ count_sheets is_V1 t = 1%Z
  /\ count_sheets is_retina t = n
  /\ count_sheets is_lgn t = (2 * n)%Z
  /\ len (registered t) = (1 + n + 2 * n)%Z
  /\ NoDup (registered t)
  /\ count_connections retina_to_lgn_wire t = (2 * n)%Z
  /\ GcalOd.num_aff p = (2 * n)%Z
  /\ count_connections lgn_to_V1_wire t = GcalOd.num_aff p
  /\ count_connections V1_lateral_wire t = 2%Z
  /\ count_connections lgn_lateral_wire t
     = (if GcalOd.gain_control p then 2 * n * n else 0)%Z
  /\ len (connections t)
     = (2 * n + 2 * n + 2 + (if GcalOd.gain_control p then 2 * n * n else 0))%Z.
Proof.
  intros t n. split; [apply eyes_by_dims|].
  assert (HN : NoDup (registered t)) by apply gcal_registered_NoDup.
  revert HN. generalize (NoDup (registered t)). intros P HP.
  subst t n.
  script_cases p; repeat split; first [exact HP | vm_compute; reflexivity].
Qed.

(** ** C5: connections only name sheets that are already registered *)

Lemma connects_registered_sound (t : list Event) :
  forall seen, connects_registered seen t = true ->
  forall (i : nat) (pr : Projection),
    t !! i = Some (EvCommand (connect pr)) ->
    (src pr ∈ seen \/ src pr ∈ registered (take i t))
    /\ (dest pr ∈ seen \/ dest pr ∈ registered (take i t)).
Proof.
  induction t as [|ev t IH]; intros seen Hok i pr Hi.
  - rewrite lookup_nil in Hi. discriminate.
  - destruct i as [|i].
    + simpl in Hi. injection Hi as ->. simpl in Hok.
      apply andb_true_iff in Hok as [Hok _].
      apply andb_true_iff in Hok as [Hs Hd].
      apply bool_decide_eq_true in Hs, Hd. auto.
    + simpl in Hi.
      assert (Hstep : exists seen',
                 connects_registered seen' t = true
                 /\ (forall k, k ∈ seen' ->
                       k ∈ seen \/ k ∈ registered (take (S i) (ev :: t)))
                 /\ (forall k, k ∈ registered (take i t) ->
                       k ∈ registered (take (S i) (ev :: t)))).
      { destruct ev as [| | | | | |k s| | |c|];
          try (exists seen; simpl; split; [exact Hok | split; auto]).
        - exists (k :: seen). simpl. split; [exact Hok|].
          split; intros k' Hk'.
          + apply elem_of_cons in Hk' as [-> | Hk'];
              [right; apply list_elem_of_here | left; exact Hk'].
          + apply list_elem_of_further. exact Hk'.
        - destruct c; simpl in Hok |- *;
            try (exists seen; split; [exact Hok | split; auto]).
          exists seen. apply andb_true_iff in Hok as [_ Hok].
          split; [exact Hok | split; auto]. }
      destruct Hstep as (seen' & Hok' & Hseen & Hmono).
      destruct (IH seen' Hok' i pr Hi) as [Hs Hd].
      split.
      * destruct Hs as [Hs | Hs]; [apply Hseen in Hs; exact Hs | right; auto].
      * destruct Hd as [Hd | Hd]; [apply Hseen in Hd; exact Hd | right; auto].
Qed.

Lemma connects_in_scope_check (t : list Event) :
  connects_registered [] t = true -> connects_in_scope t.
Proof.
  intros Hok i pr Hi.
  destruct (connects_registered_sound t [] Hok i pr Hi) as [[Hs | Hs] [Hd | Hd]];
    try (apply elem_of_nil in Hs; contradiction);
    try (apply elem_of_nil in Hd; contradiction).
  split; assumption.
Qed.

(** C5. For every setting of the parameters (in particular of [p.dims] and
    [p.gain_control]), every [topo.sim.connect] call of gcal_od.ty names a
    source and a destination sheet that an earlier statement of the script
    assigned into [topo.sim]. *)
Theorem C5_connect_after_register (p : GcalOd.Params) :
  connects_in_scope (GcalOd.trace p).
Proof.
  apply connects_in_scope_check. by_script_cases p.
Qed.

Example connect_before_register_rejected :
  connects_registered []
    [EvCommand (connect (GcalOd.lateral_excitatory GcalOd.defaults));
     EvRegister "V1" (GcalOd.V1_sheet GcalOd.defaults)] = false.
Proof. reflexivity. Qed.

(** ** C9: timing is only ever passed as parameter values *)

Lemma gcal_delays (p : GcalOd.Params) :
  Forall (delay_is 0.05) (connections (GcalOd.trace p)).
Proof.
  script_cases p; vm_compute; repeat constructor.
Qed.

Lemma gcal_generator_sheets (p : GcalOd.Params) :
  Forall (period_phase_are 1.0 0.05) (generator_sheets (GcalOd.trace p))
  /\ length (generator_sheets (GcalOd.trace p)) = length (GcalOd.eyes p).
Proof.
  script_cases p; split; vm_compute; repeat constructor.
Qed.

Lemma som_delays (p0 : SomRetinotopy.Params) :
  Forall (delay_is 0.05) (connections (SomRetinotopy.trace p0)).
Proof. vm_compute. repeat constructor. Qed.

Lemma som_generator_sheets (p0 : SomRetinotopy.Params) :
  Forall (period_phase_are 1.0 0.05) (generator_sheets (SomRetinotopy.trace p0))
  /\ length (generator_sheets (SomRetinotopy.trace p0)) = 1%nat.
Proof. split; vm_compute; repeat constructor. Qed.

(** C9. In both artifacts, for all parameter values, every projection is
    created with [delay=0.05] and every GeneratorSheet is instantiated with
    period 1.0 and phase 0.05 (passed as keywords in gcal_od.ty, assigned as
    class attributes before the instantiation in the notebook); each
    artifact creates at least one projection and one GeneratorSheet. *)
Theorem C9_delay_period_phase (p : GcalOd.Params) (p0 : SomRetinotopy.Params) :
  Forall (delay_is 0.05) (connections (GcalOd.trace p))
  /\ Forall (delay_is 0.05) (connections (SomRetinotopy.trace p0))
  /\ Forall (period_phase_are 1.0 0.05) (generator_sheets (GcalOd.trace p))
  /\ Forall (period_phase_are 1.0 0.05) (generator_sheets (SomRetinotopy.trace p0))
  /\ connections (GcalOd.trace p) <> []
  /\ connections (SomRetinotopy.trace p0) <> []
  /\ generator_sheets (GcalOd.trace p) <> []
  /\ generator_sheets (SomRetinotopy.trace p0) <> [].
Proof.
  split; [apply gcal_delays|].
  split; [apply som_delays|].
  split; [apply gcal_generator_sheets|].
  split; [apply som_generator_sheets|].
  split; [|split; [|split]].
  - script_cases p; vm_compute; discriminate.
  - vm_compute; discriminate.
  - script_cases p; vm_compute; discriminate.
  - vm_compute; discriminate.
Qed.

(** Without the class-attribute assignments, the notebook's retina would be
    left to the framework's own period and phase. *)
Example retina_without_class_defaults :
  let s := fst (new_GeneratorSheet (blank_sheet GeneratorSheet) fresh) in
  period s = None /\ phase s = None.
Proof. split; reflexivity. Qed.

(** ** C1: which sheets and connections exist depends on two switches *)

Example sheets_default :
  registered (GcalOd.trace GcalOd.defaults)
  = ["LeftRetina"; "LeftLGNOn"; "LeftLGNOff";
     "RightRetina"; "RightLGNOn"; "RightLGNOff"; "V1"].
Proof. vm_compute. reflexivity. Qed.

Example sheets_monocular :
  registered (GcalOd.trace monocular) = ["Retina"; "LGNOn"; "LGNOff"; "V1"].
Proof. vm_compute. reflexivity. Qed.


Lemma eyes_by_switch (p1 p2 : GcalOd.Params) :
  GcalOd.two_eyes p1 = GcalOd.two_eyes p2 -> GcalOd.eyes p1 = GcalOd.eyes p2.
Proof. unfold GcalOd.eyes. intros ->. reflexivity. Qed.



(** Conversely, the two switches can be read off the model that was built. *)
Lemma model_determines_switches (p1 p2 : GcalOd.Params) :
  sheets (GcalOd.trace p1) = sheets (GcalOd.trace p2) ->
  wiring (GcalOd.trace p1) = wiring (GcalOd.trace p2) ->
  GcalOd.two_eyes p1 = GcalOd.two_eyes p2
  /\ GcalOd.gain_control p1 = GcalOd.gain_control p2.
Proof.
  intros Hs Hw.
  assert (He : GcalOd.two_eyes p1 = GcalOd.two_eyes p2).
  { rewrite !sheets_registered, !gcal_registered in Hs.
    destruct (eyes_cases p1) as [[E1 R1] | [E1 R1]];
      destruct (eyes_cases p2) as [[E2 R2] | [E2 R2]];
      rewrite E1, E2; try reflexivity; exfalso;
      rewrite R1, R2 in Hs.
    - assert (Hin : "Retina" ∈ (list_to_set
                (flat_map (fun e => (e +:+ "Retina")
                   :: map (fun l => e +:+ "LGN" +:+ l) GcalOd.center_polarities)
                   ["Left"; "Right"] ++ ["V1"]) : gset string)).
      { rewrite Hs. rewrite elem_of_list_to_set.
        apply (bool_decide_unpack _). vm_compute. exact I. }
      rewrite elem_of_list_to_set in Hin.
      revert Hin. apply (bool_decide_unpack _). vm_compute. exact I.
    - assert (Hin : "Retina" ∈ (list_to_set
                (flat_map (fun e => (e +:+ "Retina")
                   :: map (fun l => e +:+ "LGN" +:+ l) GcalOd.center_polarities)
                   ["Left"; "Right"] ++ ["V1"]) : gset string)).
      { rewrite <- Hs. rewrite elem_of_list_to_set.
        apply (bool_decide_unpack _). vm_compute. exact I. }
      rewrite elem_of_list_to_set in Hin.
      revert Hin. apply (bool_decide_unpack _). vm_compute. exact I. }
  split; [exact He|].
  unfold wiring in Hw. rewrite !gcal_wires in Hw.
  rewrite <- (eyes_by_switch _ _ He) in Hw.
  destruct (GcalOd.gain_control p1), (GcalOd.gain_control p2);
    try reflexivity; exfalso;
    destruct (eyes_cases p1) as [[_ R1] | [_ R1]]; rewrite R1 in Hw.
  all: match type of Hw with
       | list_to_set ?a = list_to_set ?b =>
           assert (Hl : forall w, w ∈ a <-> w ∈ b)
             by (intros w; rewrite <- !(elem_of_list_to_set (C:=gset _)), Hw;
                 reflexivity)
       end.
  - specialize (Hl ("LeftLGNOn", "LeftLGNOn", "LeftLateralGC")).
    destruct Hl as [Hl _]. revert Hl. apply (bool_decide_unpack _). vm_compute. exact I.
  - specialize (Hl ("LGNOn", "LGNOn", "LateralGC")).
    destruct Hl as [Hl _]. revert Hl. apply (bool_decide_unpack _). vm_compute. exact I.
  - specialize (Hl ("LeftLGNOn", "LeftLGNOn", "LeftLateralGC")).
    destruct Hl as [_ Hl]. revert Hl. apply (bool_decide_unpack _). vm_compute. exact I.
  - specialize (Hl ("LGNOn", "LGNOn", "LateralGC")).
    destruct Hl as [_ Hl]. revert Hl. apply (bool_decide_unpack _). vm_compute. exact I.
Qed.

(** ** C2: where the simulation loop is invoked *)

Lemma run_after_setup_sound (t : list Event) :
  run_after_setup t = true -> runs_follow_setup t.
Proof.
  induction t as [|ev t IH]; intros Hok i j r s Hi Hr Hj Hs.
  - rewrite lookup_nil in Hi. discriminate.
  - simpl in Hok. apply andb_true_iff in Hok as [Hhead Htail].
    destruct i as [|i], j as [|j]; simpl in Hi, Hj.
    + injection Hi as <-. injection Hj as <-.
      unfold is_setup, is_register, is_connect in Hs. unfold is_run in Hr.
      destruct ev as [| | | | | | | | |c|]; try discriminate.
      destruct c; discriminate.
    + injection Hi as <-. rewrite Hr in Hhead.
      rewrite forallb_forall in Hhead.
      assert (Hin : In s t).
      { apply list_elem_of_In, list_elem_of_lookup. eauto. }
      apply Hhead in Hin. rewrite Hs in Hin. discriminate.
    + lia.
    + specialize (IH Htail i j r s Hi Hr Hj Hs). lia.
Qed.

Lemma runs_none (t : list Event) : runs t = [] -> invokes_run t = false.
Proof.
  induction t as [|ev t IH]; [reflexivity|].
  destruct ev as [| | | | | | | | |c|]; simpl; auto.
  destruct c; simpl; auto. discriminate.
Qed.

Lemma gcal_runs (p : GcalOd.Params) : runs (GcalOd.trace p) = [].
Proof. by_script_cases p. Qed.

(** Counterexample to C2: run with its defaults, gcal_od.ty never calls
    [run]. *)
Lemma C2_counterexample :
  ~ exists (i : nat) (n : Q),
      GcalOd.trace GcalOd.defaults !! i = Some (EvCommand (run n)).
Proof.
  intros (i & n & Hi).
  assert (Hex : invokes_run (GcalOd.trace GcalOd.defaults) = true).
  { unfold invokes_run. apply existsb_exists. exists (EvCommand (run n)).
    split; [|reflexivity].
    apply list_elem_of_In, list_elem_of_lookup. eauto. }
  rewrite (runs_none _ (gcal_runs GcalOd.defaults)) in Hex. discriminate.
Qed.

(** C2, amended. The notebook defines its parameters, input pattern, sheets
    and projection and then invokes the simulation loop: it calls [run(4)]
    and [run(245)], both after every sheet creation and [connect].
    gcal_od.ty only defines the model: for no parameter values does it call
    [run] (the simulation is started by whoever loads the script). *)
Theorem C2_run_only_in_notebook (p : GcalOd.Params) (p0 : SomRetinotopy.Params) :
  runs (SomRetinotopy.trace p0) = [inject_Z 4; inject_Z 245]
  /\ invokes_run (SomRetinotopy.trace p0) = true
  /\ runs_follow_setup (SomRetinotopy.trace p0)
  /\ registered (SomRetinotopy.trace p0) = ["Retina"; "V1"]
  /\ map wire (connections (SomRetinotopy.trace p0)) = [("Retina", "V1", "Afferent")]
  /\ runs (GcalOd.trace p) = []
  /\ invokes_run (GcalOd.trace p) = false
  /\ runs_follow_setup (GcalOd.trace p).
Proof.
  split; [vm_compute; reflexivity|].
  split; [vm_compute; reflexivity|].
  split; [apply run_after_setup_sound; vm_compute; reflexivity|].
  split; [vm_compute; reflexivity|].
  split; [vm_compute; reflexivity|].
  split; [apply gcal_runs|].
  split; [apply runs_none, gcal_runs|].
  apply run_after_setup_sound. by_script_cases p.
Qed.

Example setup_after_run_rejected :
  run_after_setup [EvCommand (run 1);
                   EvRegister "V1" (GcalOd.V1_sheet GcalOd.defaults)] = false.
Proof. reflexivity. Qed.

(** ** C7: the framework commands the two artifacts issue *)

(** Counterexample to C7: the notebook also calls
    [topo.sim.V1.Afferent.projection_view()], which is none of [run],
    [connect], [measure_cog], [grid_layout]. *)
Lemma C7_counterexample :
  projection_view "V1" "Afferent"
    ∈ commands (SomRetinotopy.trace SomRetinotopy.defaults)
  /\ ~ only_named_commands (SomRetinotopy.trace SomRetinotopy.defaults).
Proof.
  assert (Hin : projection_view "V1" "Afferent"
                  ∈ commands (SomRetinotopy.trace SomRetinotopy.defaults)).
  { vm_compute. repeat first [ apply list_elem_of_here | apply list_elem_of_further ]. }
  split; [exact Hin|].
  unfold only_named_commands. rewrite Forall_forall. intros H.
  apply H in Hin. revert Hin.
  apply (bool_decide_unpack _). vm_compute. exact I.
Qed.

(** C7, amended. gcal_od.ty issues [connect] and [grid_layout] and nothing
    else; the notebook issues [connect], [run] and [measure_cog] and, besides
    these, [grid], [projection_view], [anim], [time] and the Collector
    (its construction, [collect] and its call).  So the four named commands
    are all issued, and the notebook issues others too.  Both artifacts
    instantiate their sheets by assignment to [topo.sim['Name']]. *)
Theorem C7_commands_issued (p : GcalOd.Params) (p0 : SomRetinotopy.Params) :
  commands_used (GcalOd.trace p) = list_to_set ["connect"; "grid_layout"]
  /\ commands_used (SomRetinotopy.trace p0)
     = list_to_set
         ["connect"; "run"; "measure_cog"; "grid"; "projection_view"; "anim";
          "time"; "Collector"; "collect"; "Collector.__call__"]
  /\ list_to_set named_commands
       ⊆ commands_used (GcalOd.trace p) ∪ commands_used (SomRetinotopy.trace p0)
  /\ only_named_commands (GcalOd.trace p)
  /\ registered (GcalOd.trace p) <> []
  /\ registered (SomRetinotopy.trace p0) = ["Retina"; "V1"].
Proof.
  assert (Hg : commands_used (GcalOd.trace p)
               = list_to_set ["connect"; "grid_layout"])
    by by_script_cases p.
  assert (Hs : commands_used (SomRetinotopy.trace p0)
               = list_to_set
                   ["connect"; "run"; "measure_cog"; "grid"; "projection_view";
                    "anim"; "time"; "Collector"; "collect"; "Collector.__call__"])
    by (vm_compute; reflexivity).
  split; [exact Hg|]. split; [exact Hs|]. split; [|split; [|split]].
  - rewrite Hg, Hs. unfold named_commands. set_solver.
  - unfold only_named_commands. rewrite Forall_forall. intros c Hc.
    assert (Hn : command_name c ∈ commands_used (GcalOd.trace p)).
    { unfold commands_used. rewrite elem_of_list_to_set.
      apply list_elem_of_fmap. exists c. split; [reflexivity | exact Hc]. }
    rewrite Hg in Hn. unfold named_commands. set_solver.
  - rewrite gcal_registered. destruct (eyes_cases p) as [[_ ->] | [_ ->]]; discriminate.
  - vm_compute. reflexivity.
Qed.

(** ** C3 and C4: the brightness of the two eyes' patterns *)

Lemma xrange_lookup (n : Z) (k : nat) :
  (Z.of_nat k < n)%Z -> xrange n !! k = Some (Z.of_nat k).
Proof.
  intros Hk. unfold xrange. rewrite list_lookup_fmap.
  rewrite lookup_seq_lt by lia. reflexivity.
Qed.

Lemma gaussian_inputs_lookup (p : GcalOd.Params) (e : string) (k : nat) :
  (Z.of_nat k < GcalOd.total_num_inputs p)%Z ->
  GcalOd.gaussian_inputs p e !! k = Some (GcalOd.gaussian_input p e (Z.of_nat k)).
Proof.
  intros Hk. unfold GcalOd.gaussian_inputs.
  rewrite list_lookup_fmap, xrange_lookup by exact Hk. reflexivity.
Qed.

Lemma brightness_range (draw : Q -> Q) (s : Z) :
  unit_draws draw -> 0 <= eval draw (GcalOd.uniform 0 2 s) <= 2.
Proof.
  intros Hd. unfold GcalOd.uniform. simpl.
  destruct (Hd (inject_Z s)) as [H0 H1]. split; lra.
Qed.

Lemma retinas_fed (p : GcalOd.Params) : Forall (retina_fed p) (GcalOd.eyes p).
Proof.
  apply Forall_forall. intros e He. split.
  - revert He. script_cases p; intros He;
      repeat (apply elem_of_cons in He as [-> | He]);
      try (apply elem_of_nil in He; contradiction);
      vm_compute; reflexivity.
  - unfold GcalOd.combined_inputs, GcalOd.inputs.
    destruct (GcalOd.dataset p); reflexivity.
Qed.

(** Counterexample to C3: computed in binary64, as the script and numbergen
    do, the two scales need not sum to 2 nor stay in the interval.  With
    [dim_fraction=0.7] and the brightness stream at 19/64 (the draw
    [u=0.59375]) the sum is 1.9999999999999998; with [dim_fraction=0.2] and
    the stream at 0 the right eye's scale is 1.2000000000000002, above
    [1+dim_fraction] in exact and in binary64 arithmetic. *)
Lemma C3_counterexample :
  Binary64.to_Q (scale_sum64 0.7 (19 # 64))
    == 9007199254740991 # 4503599627370496
  /\ ~ Binary64.to_Q (scale_sum64 0.7 (19 # 64)) == 2
  /\ 1 + 0.2
     < Binary64.to_Q (gaussian_scale (Binary64.of_Q 0.2) "Right" (brightness64 0))
  /\ Binary64.to_Q (a_add (a_lit 1) (Binary64.of_Q 0.2))
     < Binary64.to_Q (gaussian_scale (Binary64.of_Q 0.2) "Right" (brightness64 0)).
Proof.
  split; [vm_compute; reflexivity|].
  split; [intros H; vm_compute in H; discriminate|].
  split; vm_compute; reflexivity.
Qed.

(** C3, amended. With the Gaussian dataset and two eyes, for every input
    index [i] the two eyes' patterns carry the scale generators
    [(1-dim_fraction)+dim_fraction*U] (left) and
    [(1-dim_fraction)+dim_fraction*(2.0-U)] (right) over the same brightness
    stream [U], uniform on [0,2] with seed [input_seed+5+6*i].  For every
    draw [u] of that stream, the values of the two expressions in exact
    arithmetic sum to 2 and, with [dim_fraction] non-negative, lie in
    [1-dim_fraction, 1+dim_fraction].  Computed in binary64, as the script
    and numbergen do, the two scales do not always sum to exactly 2, nor
    does the right eye's always stay below [1+dim_fraction]. *)
Theorem C3_gaussian_scales_exact (p : GcalOd.Params) (draw : Q -> Q) (i : Z) :
  GcalOd.dataset p = GcalOd.DsGaussian ->
  GcalOd.two_eyes p = true ->
  unit_draws draw ->
  let df := GcalOd.dim_fraction p in
  let U := GcalOd.uniform 0 2 (GcalOd.input_seed + 5 + 6 * i) in
  let sl := BinaryOperator OpAdd (Num (1 - df)) (BinaryOperator OpMul (Num df) U) in
  let sr := BinaryOperator OpAdd (Num (1 - df))
              (BinaryOperator OpMul (Num df) (BinaryOperator OpSub (Num 2.0) U)) in
  let u := gaussian_brightness draw i in
  GcalOd.eyes p = ["Left"; "Right"]
  /\ Forall (retina_fed p) (GcalOd.eyes p)
  /\ (forall (e : string) (k : nat),
        (Z.of_nat k < GcalOd.total_num_inputs p)%Z ->
        GcalOd.inputs p e !! k = Some (GcalOd.gaussian_input p e (Z.of_nat k)))
  /\ pattern_scale (GcalOd.gaussian_input p "Left" i) = Some sl
  /\ pattern_scale (GcalOd.gaussian_input p "Right" i) = Some sr
  /\ eval draw sl = gaussian_scale df "Left" u
  /\ eval draw sr = gaussian_scale df "Right" u
  /\ u = uniform_value 0 2 (draw (inject_Z (GcalOd.input_seed + 5 + 6 * i)))
  /\ 0 <= u <= 2
  /\ gaussian_scale df "Left" u == (1 - df) + df * u
  /\ gaussian_scale df "Right" u == (1 - df) + df * (2 - u)
  /\ gaussian_scale df "Left" u + gaussian_scale df "Right" u == 2
  /\ (0 <= df ->
      (1 - df <= gaussian_scale df "Left" u <= 1 + df)
      /\ (1 - df <= gaussian_scale df "Right" u <= 1 + df))
  /\ ~ (forall f r : Q, 0 <= f <= 1 -> 0 <= r <= 1 ->
          Binary64.to_Q (scale_sum64 f r) == 2)
  /\ ~ (forall f r : Q, 0 <= f <= 1 -> 0 <= r <= 1 ->
          Binary64.to_Q (gaussian_scale (Binary64.of_Q f) "Right" (brightness64 r))
          <= 1 + f).
Proof.
  intros Hds Heyes Hdraw df U sl sr u.
  split. { unfold GcalOd.eyes. rewrite Heyes. reflexivity. }
  split; [apply retinas_fed|].
  split. { intros e k Hk. unfold GcalOd.inputs. rewrite Hds.
           apply gaussian_inputs_lookup, Hk. }
  split; [reflexivity|]. split; [reflexivity|].
  split; [reflexivity|]. split; [reflexivity|]. split; [reflexivity|].
  assert (Hu : 0 <= u <= 2) by apply brightness_range, Hdraw.
  split; [exact Hu|].
  unfold gaussian_scale. cbn [String.eqb Ascii.eqb Bool.eqb a_lit a_add a_sub a_mul exact_arith].
  split; [reflexivity|]. split; [ring|]. split; [ring|].
  split. { intros Hdf. destruct Hu as [Hu0 Hu2]. split; split; nra. }
  split.
  - intros H. specialize (H 0.7 (19 # 64)).
    assert (Hs : Binary64.to_Q (scale_sum64 0.7 (19 # 64)) == 2)
      by (apply H; lra).
    vm_compute in Hs. discriminate Hs.
  - intros H. specialize (H 0.2 0).
    assert (Hs : Binary64.to_Q
                   (gaussian_scale (Binary64.of_Q 0.2) "Right" (brightness64 0))
                 <= 1 + 0.2)
      by (apply H; lra).
    vm_compute in Hs. apply Hs. reflexivity.
Qed.

Lemma half_draw_unit : unit_draws half_draw.
Proof. intros s. unfold half_draw. split; unfold Qle; simpl; lia. Defined.

Lemma zero_draw_unit : unit_draws zero_draw.
Proof. intros s. unfold zero_draw. split; unfold Qle; simpl; lia. Defined.

Lemma C3_gaussian_scales_exact_witness :
  GcalOd.dataset GcalOd.defaults = GcalOd.DsGaussian
  /\ GcalOd.two_eyes GcalOd.defaults = true
  /\ unit_draws half_draw
  /\ gaussian_scale 0.7 "Left" (gaussian_brightness half_draw 0)
     + gaussian_scale 0.7 "Right" (gaussian_brightness half_draw 0) == 2.
Proof.
  assert (H1 : GcalOd.dataset GcalOd.defaults = GcalOd.DsGaussian) by reflexivity.
  assert (H2 : GcalOd.two_eyes GcalOd.defaults = true) by reflexivity.
  split; [exact H1|]. split; [exact H2|]. split; [exact half_draw_unit|].
  destruct (C3_gaussian_scales_exact GcalOd.defaults half_draw 0 H1 H2 half_draw_unit)
    as (_ & _ & _ & _ & _ & _ & _ & _ & _ & _ & _ & Hsum & _ & _ & _).
  exact Hsum.
Defined.

Example gaussian_scales_default :
  eye_scale half_draw (GcalOd.inputs GcalOd.defaults "Left") 0 = Some (1 - 0.7 + 0.7 * (0 + (2 - 0) * (1 # 2)))
  /\ eye_scale zero_draw (GcalOd.inputs GcalOd.defaults "Left") 1 = Some (1 - 0.7 + 0.7 * (0 + (2 - 0) * 0))
  /\ eye_scale zero_draw (GcalOd.inputs GcalOd.defaults "Right") 1
     = Some (1 - 0.7 + 0.7 * (2.0 - (0 + (2 - 0) * 0))).
Proof. repeat split; vm_compute; reflexivity. Qed.

Lemma nature_inputs_lookup (p : GcalOd.Params) (e : string) (k : nat) :
  (k < 25)%nat ->
  exists f : string,
    GcalOd.nature_inputs p e !! k = Some (GcalOd.nature_input p e f (Z.of_nat k)).
Proof.
  intros Hk.
  do 25 (destruct k as [|k]; [eexists; reflexivity|]).
  lia.
Qed.

Example image_filenames_ends :
  GcalOd.image_filenames !! 0%nat = Some "images/shouval/combined01.png"
  /\ GcalOd.image_filenames !! 24%nat = Some "images/shouval/combined25.png"
  /\ length GcalOd.image_filenames = 25%nat.
Proof. vm_compute. auto. Qed.

Lemma nature_scales (p : GcalOd.Params) (draw : Q -> Q) (k : nat) :
  GcalOd.dataset p = GcalOd.DsNature ->
  (k < 25)%nat ->
  let df := GcalOd.dim_fraction p in
  let u := nature_brightness draw (Z.of_nat k) in
  eye_scale draw (GcalOd.inputs p "Left") k = Some u
  /\ eye_scale draw (GcalOd.inputs p "Right") k = Some ((1 - df) + df * (2.0 - u))
  /\ scale_sum draw p k = Some (u + ((1 - df) + df * (2.0 - u))).
Proof.
  intros Hds Hk df u.
  destruct (nature_inputs_lookup p "Left" k Hk) as [fl Hl].
  destruct (nature_inputs_lookup p "Right" k Hk) as [fr Hr].
  assert (HL : eye_scale draw (GcalOd.inputs p "Left") k = Some u).
  { unfold eye_scale, GcalOd.inputs. rewrite Hds, Hl. reflexivity. }
  assert (HR : eye_scale draw (GcalOd.inputs p "Right") k
               = Some ((1 - df) + df * (2.0 - u))).
  { unfold eye_scale, GcalOd.inputs. rewrite Hds, Hr. reflexivity. }
  split; [exact HL|]. split; [exact HR|].
  unfold scale_sum. rewrite HL, HR. reflexivity.
Qed.



Example nature_scales_lopsided :
  scale_sum zero_draw nature_wide 3 = Some (0 + (2 - 0) * 0 + (1 - 0.5 + 0.5 * (2.0 - (0 + (2 - 0) * 0))))
  /\ ~ holds (scale_sum zero_draw nature_wide 3) 2
  /\ holds (scale_sum half_draw nature_wide 3) 2.
Proof.
  split; [reflexivity|]. split.
  - vm_compute. discriminate.
  - vm_compute. reflexivity.
Qed.

(** ** C8: what the scripts do with parameter values *)



(** The declared bounds of [area] and of [radius_0]. *)
Example declared_bounds :
  bounds <$> (List.find (fun d => String.eqb (pname d) "area") GcalOd.declared)
  = Some (Some (Some 0, None))
  /\ bounds <$> (List.find (fun d => String.eqb (pname d) "radius_0")
                           SomRetinotopy.declared)
     = Some (Some (Some 0, None)).
Proof. split; reflexivity. Qed.

(** * Further properties *)

(** ** Names are introduced before they are used *)

Lemma scoped_sound {K : Type} `{EqDecision K} (defs refs : Event -> list K)
    (t : list Event) :
  forall seen, scoped defs refs seen t = true ->
  forall (i : nat) (ev : Event) (k : K),
    t !! i = Some ev -> k ∈ refs ev ->
    k ∈ seen \/ k ∈ flat_map defs (take i t).
Proof.
  induction t as [|ev0 t IH]; intros seen Hok i ev k Hi Hk.
  - rewrite lookup_nil in Hi. discriminate.
  - simpl in Hok. apply andb_true_iff in Hok as [Hhead Htail].
    destruct i as [|i]; simpl in Hi.
    + injection Hi as <-. left.
      rewrite forallb_forall in Hhead.
      apply list_elem_of_In in Hk. apply Hhead in Hk.
      apply bool_decide_eq_true in Hk. exact Hk.
    + destruct (IH _ Htail i ev k Hi Hk) as [Hs | Hs].
      * apply elem_of_app in Hs as [Hs | Hs].
        -- right. simpl. apply elem_of_app. left. exact Hs.
        -- left. exact Hs.
      * right. simpl. apply elem_of_app. right. exact Hs.
Qed.

Lemma in_scope_check {K : Type} `{EqDecision K} (defs refs : Event -> list K)
    (t : list Event) :
  scoped defs refs [] t = true -> in_scope defs refs t.
Proof.
  intros Hok i ev k Hi Hk.
  destruct (scoped_sound defs refs t [] Hok i ev k Hi Hk) as [Hs | Hs];
    [apply elem_of_nil in Hs; contradiction | exact Hs].
Qed.

Example use_before_definition_rejected :
  scoped sheet_defs sheet_refs []
    [EvCommand (grid "V1" "Afferent");
     EvRegister "V1" (GcalOd.V1_sheet GcalOd.defaults)] = false.
Proof. reflexivity. Qed.

(** X1. For all parameter values, the grid handed to
    [topo.sim.grid_layout] is rectangular: it has three rows [vs], [ls] and
    [es] of [2*num_aff] cells each, with 'V1' in cell [num_aff-1] of the
    first row, and it is the only layout the script requests. *)
Theorem layout_is_rectangular (p : GcalOd.Params) :
  grids (GcalOd.trace p) = [[GcalOd.vs p; GcalOd.ls p; GcalOd.es p]]
  /\ Forall (fun row => len row = (2 * GcalOd.num_aff p)%Z)
            [GcalOd.vs p; GcalOd.ls p; GcalOd.es p]
  /\ GcalOd.vs p !! Z.to_nat (GcalOd.num_aff p - 1) = Some (Some "V1").
Proof.
  script_cases p; repeat split; vm_compute; repeat constructor.
Qed.

(** X2. For all parameter values, the script requests exactly one layout;
    it shows every sheet of the model exactly once and nothing else, and
    every sheet it or a [connect] names has been registered by an earlier
    statement. *)
Theorem layout_shows_the_registered_sheets (p : GcalOd.Params) :
  Forall (fun g => NoDup (grid_names g)
                   /\ list_to_set (grid_names g) = sheets (GcalOd.trace p))
         (grids (GcalOd.trace p))
  /\ in_scope sheet_defs sheet_refs (GcalOd.trace p)
  /\ length (grids (GcalOd.trace p)) = 1%nat.
Proof.
  split; [| split].
  - rewrite sheets_registered.
    script_cases p; repeat constructor;
      first [ apply (bool_decide_unpack _); vm_compute; exact I
            | vm_compute; reflexivity ].
  - apply in_scope_check. by_script_cases p.
  - by_script_cases p.
Qed.

(** X3. For all parameter values, the script builds the model in stages:
    every sheet is registered before the first [connect], and the layout is
    requested after the last [connect]. *)
Theorem model_is_built_in_stages (p : GcalOd.Params) :
  StronglySorted le (omap stage (GcalOd.trace p)).
Proof.
  script_cases p; vm_compute;
    repeat (constructor; [| repeat (constructor; [lia|]); constructor]);
    constructor.
Qed.

(** X4. For all parameter values, no two projections into the same sheet
    share a name, so a projection is identified by its destination and its
    name; the same holds in the notebook. *)
Theorem projection_names_unique (p : GcalOd.Params) (p0 : SomRetinotopy.Params) :
  NoDup (projection_keys (GcalOd.trace p))
  /\ NoDup (projection_keys (SomRetinotopy.trace p0)).
Proof.
  split.
  - script_cases p; apply (bool_decide_unpack _); vm_compute; exact I.
  - apply (bool_decide_unpack _); vm_compute; exact I.
Qed.

(** X5. In the notebook, for all parameter values, every sheet named by a
    [connect], [grid()] or [projection_view()] has been assigned into
    [topo.sim] by an earlier statement, and every projection that [grid()]
    or [projection_view()] is called on has been created by an earlier
    [connect]. *)
Theorem notebook_names_in_scope (p0 : SomRetinotopy.Params) :
  in_scope sheet_defs sheet_refs (SomRetinotopy.trace p0)
  /\ in_scope projection_defs projection_refs (SomRetinotopy.trace p0)
  /\ connects_in_scope (SomRetinotopy.trace p0).
Proof.
  split; [| split].
  - apply in_scope_check. vm_compute. reflexivity.
  - apply in_scope_check. vm_compute. reflexivity.
  - apply connects_in_scope_check. vm_compute. reflexivity.
Qed.

(** ** Strengths and connection fields *)

(** X6. With gain control, every LGN sheet receives one lateral connection
    from the same-polarity LGN sheet of each eye, each with strength
    [0.6/len(eyes)], so that the strengths into a sheet add up to 0.6
    whether the model has one eye or two; without gain control the script
    creates no lateral connection between LGN sheets. *)
Theorem lateral_gain_control_is_pooled (p : GcalOd.Params) :
  let t := GcalOd.trace p in
  let lgns := List.filter is_lgn (registered t) in
  let each := Some (0.6 / inject_Z (len (GcalOd.eyes p))) in
  strengths_between lgn_lateral_wire t
  = (if GcalOd.gain_control p
     then flat_map (fun e =>
            flat_map (fun l =>
              map (fun e2 => (e2 +:+ "LGN" +:+ l, e +:+ "LGN" +:+ l, each))
                  (GcalOd.eyes p))
              GcalOd.center_polarities)
            (GcalOd.eyes p)
     else [])
  /\ Forall (fun k => strengths_into lgn_lateral_wire k t
                      = if GcalOd.gain_control p
                        then replicate (length (GcalOd.eyes p)) each
                        else [])
            lgns
  /\ Forall (fun k => incoming_strength lgn_lateral_wire k t
                      == (if GcalOd.gain_control p then 0.6 else 0))
            lgns
  /\ lgns <> []
  /\ (GcalOd.gain_control p = false ->
      List.filter lgn_lateral_wire (connections t) = []).
Proof.
  intros t lgns each. subst t lgns each.
  split; [by_script_cases p|].
  split; [script_cases p; vm_compute; repeat constructor|].
  split; [script_cases p; vm_compute; repeat constructor|].
  split; [script_cases p; vm_compute; discriminate|].
  intros Hgc. expose_script. abstract_count p. rewrite Hgc.
  destruct (eyes_cases p) as [[_ ->] | [_ ->]]; vm_compute; reflexivity.
Qed.

(** X8. The Off weights are the On weights negated: both composites
    subtract the same two Gaussians, in opposite order, so at every point
    their values add up to zero; and every retina-to-LGN projection into an
    On sheet uses the On weights, every one into an Off sheet the Off
    weights. *)
Theorem on_off_weights_are_opposite (p : GcalOd.Params) (at_point : Kernel -> Q) :
  composite_value at_point on_weights
    = Some (at_point centerg - at_point surroundg)
  /\ composite_value at_point off_weights
     = Some (at_point surroundg - at_point centerg)
  /\ (at_point centerg - at_point surroundg)
     + (at_point surroundg - at_point centerg) == 0
  /\ kernel_size centerg < kernel_size surroundg
  /\ Forall (fun pr => weights_generator pr
                       = if contains "On" (dest pr) then on_weights else off_weights)
            (List.filter retina_to_lgn_wire (connections (GcalOd.trace p))).
Proof.
  split; [reflexivity|]. split; [reflexivity|]. split; [ring|].
  split; [reflexivity|].
  script_cases p; vm_compute; repeat constructor.
Qed.

(** ** What a parameter does not influence *)

Ltac expose_inputs :=
  unfold GcalOd.trace, GcalOd.gcal_od, GcalOd.create_subcortical_sheets,
    GcalOd.retina_args, GcalOd.combined_inputs, GcalOd.gaussian_inputs,
    GcalOd.nature_inputs, GcalOd.gaussian_input, GcalOd.nature_input.

(** X9. Unless 'dy' is one of [p.dims], [p.max_disparity] has no effect:
    the script issues the same statements, with the same arguments,
    whatever its value. *)
Theorem max_disparity_needs_dy (p : GcalOd.Params) (v : Q) :
  "dy" ∉ GcalOd.dims p ->
  GcalOd.trace (with_max_disparity v p) = GcalOd.trace p.
Proof.
  intros Hdy.
  assert (Hd : forall q, GcalOd.dims q = GcalOd.dims p ->
                 GcalOd.disparity_bound q = 0.0
                 /\ GcalOd.position_bound q = GcalOd.area q / 2.0 + 0.25).
  { intros q Hq. unfold GcalOd.disparity_bound, GcalOd.position_bound, GcalOd.has_dim.
    rewrite Hq, (bool_decide_eq_false_2 _ Hdy). split; reflexivity. }
  destruct (Hd p eq_refl) as [Hdb Hpb].
  destruct (Hd (with_max_disparity v p) eq_refl) as [Hdb' Hpb'].
  expose_inputs. rewrite Hdb, Hpb, Hdb', Hpb'.
  change (GcalOd.total_num_inputs (with_max_disparity v p))
    with (GcalOd.total_num_inputs p).
  generalize (GcalOd.total_num_inputs p). intros count.
  vm_compute. reflexivity.
Qed.

Lemma max_disparity_needs_dy_witness :
("dy" ∉ GcalOd.dims GcalOd.defaults)
  /\ GcalOd.trace (with_max_disparity 10 GcalOd.defaults)
     = GcalOd.trace GcalOd.defaults.
Proof.
  assert (H : "dy" ∉ GcalOd.dims GcalOd.defaults)
    by (apply (bool_decide_unpack _); vm_compute; exact I).
  split; [exact H | apply (max_disparity_needs_dy GcalOd.defaults 10 H)].
Defined.

(** With 'dy' among the dimensions the value does matter. *)
Example max_disparity_matters_with_dy :
  GcalOd.disparity_bound stereo == 0.08333
  /\ GcalOd.disparity_bound (with_max_disparity 0 stereo) == 0.
Proof. split; reflexivity. Qed.

(** X10. With the Nature dataset, [p.num_inputs] has no effect: each
    retina is registered with the same 25 images as its input generator
    whatever its value. *)
Theorem num_inputs_unused_with_images (p : GcalOd.Params) (n : Z) :
  GcalOd.dataset p = GcalOd.DsNature ->
  GcalOd.trace (with_num_inputs n p) = GcalOd.trace p
  /\ (forall e, length (GcalOd.inputs p e) = 25%nat)
  /\ Forall (retina_fed p) (GcalOd.eyes p).
Proof.
  intros Hds. split; [| split].
  - unfold with_num_inputs. destruct p; simpl in Hds |- *. subst.
    vm_compute. reflexivity.
  - intros e. unfold GcalOd.inputs. rewrite Hds.
    unfold GcalOd.nature_inputs. rewrite length_map. reflexivity.
  - apply retinas_fed.
Qed.

Lemma num_inputs_unused_with_images_witness :
  GcalOd.dataset nature_wide = GcalOd.DsNature
  /\ GcalOd.trace (with_num_inputs 7 nature_wide) = GcalOd.trace nature_wide.
Proof.
  assert (H : GcalOd.dataset nature_wide = GcalOd.DsNature) by reflexivity.
  split; [exact H | apply (num_inputs_unused_with_images nature_wide 7 H)].
Defined.

(** X11. With the Nature dataset and a single eye, [p.dim_fraction] has
    no effect: the one retina's images are scaled by the raw brightness
    draw, whatever the fraction. *)
Theorem dim_fraction_unused_with_one_eye_of_images (p : GcalOd.Params) (v : Q) :
  GcalOd.dataset p = GcalOd.DsNature ->
  GcalOd.two_eyes p = false ->
  GcalOd.trace (with_dim_fraction v p) = GcalOd.trace p.
Proof.
  intros Hds Heyes.
  assert (He : forall q, GcalOd.dims q = GcalOd.dims p ->
                 GcalOd.eyes q = [EmptyString]).
  { intros q Hq. unfold GcalOd.eyes, GcalOd.two_eyes, GcalOd.has_dim.
    rewrite Hq. unfold GcalOd.two_eyes, GcalOd.has_dim in Heyes.
    rewrite Heyes. reflexivity. }
  assert (Hd : forall q, GcalOd.dataset q = GcalOd.dataset p ->
                 forall e, GcalOd.combined_inputs q e
                           = Selector (GcalOd.nature_inputs q e)).
  { intros q Hq e. unfold GcalOd.combined_inputs. rewrite Hq, Hds. reflexivity. }
  expose_script. unfold GcalOd.retina_args.
  rewrite (He p eq_refl), (He (with_dim_fraction v p) eq_refl).
  simpl for_each.
  rewrite (Hd p eq_refl), (Hd (with_dim_fraction v p) eq_refl).
  vm_compute. reflexivity.
Qed.

Lemma dim_fraction_unused_with_one_eye_of_images_witness :
  GcalOd.dataset monocular_images = GcalOd.DsNature
  /\ GcalOd.two_eyes monocular_images = false
  /\ GcalOd.trace (with_dim_fraction 0 monocular_images)
     = GcalOd.trace monocular_images.
Proof.
  assert (H1 : GcalOd.dataset monocular_images = GcalOd.DsNature) by reflexivity.
  assert (H2 : GcalOd.two_eyes monocular_images = false) by reflexivity.
  split; [exact H1|]. split; [exact H2|].
  apply (dim_fraction_unused_with_one_eye_of_images monocular_images 0 H1 H2).
Defined.

(** ** How many patterns a retina is shown *)

Lemma int_nonpositive (q : Q) : (int q <= 0)%Z <-> q < 1.
Proof.
  unfold int, Qlt. destruct q as [n d]. simpl.
  rewrite Z.mul_1_r, Z.mul_1_l.
  assert (Hd : (0 < Z.pos d)%Z) by lia.
  split.
  - intros Hq. destruct (Z_lt_le_dec n (Z.pos d)) as [Hlt | Hge]; [exact Hlt|].
    pose proof (Z.quot_str_pos n (Z.pos d) (conj Hd Hge)). lia.
  - intros Hlt. destruct (Z_lt_le_dec n 0) as [Hneg | Hpos].
    + assert (Hq : (0 <= (- n) ÷ Z.pos d)%Z) by (apply Z.quot_pos; lia).
      rewrite Z.quot_opp_l in Hq by lia. lia.
    + rewrite Z.quot_small by lia. lia.
Qed.

(** X12. With the Gaussian dataset each retina is shown
    [int(num_inputs*area*area)] Gaussians, where the product is computed in
    binary64 and truncated towards zero: 244 for [num_inputs=125] and
    [area=1.4], whose exact product is 245, and none at all as soon as the
    product is below 1 (an area of 0.5 with the default two inputs, say).
    The product is assumed finite; [int] raises on an infinity or a NaN. *)
Theorem gaussians_per_retina (p : GcalOd.Params) (e : string) :
  GcalOd.dataset p = GcalOd.DsGaussian ->
  Binary64.is_finite (GcalOd.num_inputs_product p) = true ->
  let product :=
    Binary64.to_Q
      (Binary64.mul
         (Binary64.mul (Binary64.of_Z (GcalOd.num_inputs p))
                       (Binary64.of_Q (GcalOd.area p)))
         (Binary64.of_Q (GcalOd.area p))) in
  GcalOd.inputs p e = map (GcalOd.gaussian_input p e) (xrange (int product))
  /\ length (GcalOd.inputs p e) = Z.to_nat (int product)
  /\ (GcalOd.inputs p e = [] <-> product < 1).
Proof.
  intros Hds _ product.
  assert (Hin : GcalOd.inputs p e
                = map (GcalOd.gaussian_input p e) (xrange (int product))).
  { unfold GcalOd.inputs. rewrite Hds. reflexivity. }
  assert (Hlen : length (GcalOd.inputs p e) = Z.to_nat (int product)).
  { rewrite Hin. unfold xrange. rewrite !length_map, length_seq. reflexivity. }
  split; [exact Hin|]. split; [exact Hlen|].
  rewrite <- int_nonpositive.
  split.
  - intros Hnil. rewrite Hnil in Hlen. simpl in Hlen. lia.
  - intros Hle. apply length_zero_iff_nil. rewrite Hlen. lia.
Qed.

Lemma gaussians_per_retina_witness :
  GcalOd.dataset many_inputs = GcalOd.DsGaussian
  /\ Binary64.is_finite (GcalOd.num_inputs_product many_inputs) = true
  /\ length (GcalOd.inputs many_inputs "Left") = 244%nat.
Proof.
  assert (H : GcalOd.dataset many_inputs = GcalOd.DsGaussian) by reflexivity.
  assert (F : Binary64.is_finite (GcalOd.num_inputs_product many_inputs) = true)
    by (vm_compute; reflexivity).
  split; [exact H|]. split; [exact F|].
  rewrite (proj1 (proj2 (gaussians_per_retina many_inputs "Left" H F))).
  vm_compute. reflexivity.
Defined.

(** The exact product would give one pattern more; a small area gives
    none. *)
Example pattern_counts :
  int (inject_Z 125 * 1.4 * 1.4) = 245%Z
  /\ GcalOd.total_num_inputs many_inputs = 244%Z
  /\ GcalOd.total_num_inputs GcalOd.defaults = 2%Z
  /\ GcalOd.inputs small_area "Left" = [].
Proof. repeat split; vm_compute; reflexivity. Qed.

(** ** Random streams *)

Lemma flat_map_inject (f : Z -> list Z) (l : list Z) :
  flat_map (fun i => map inject_Z (f i)) l = map inject_Z (flat_map f l).
Proof.
  induction l as [|i l IH]; simpl; [reflexivity|].
  rewrite IH, map_app. reflexivity.
Qed.

(** Seeds [base + j + st*i] for offsets [j] below the stride [st] never
    repeat. *)
Lemma strided_seeds_NoDup (base st : Z) (offs : list Z) :
  NoDup offs -> Forall (fun j => 0 <= j < st)%Z offs ->
  forall (m start : nat),
    NoDup (flat_map (fun i => map (fun j => base + j + st * i)%Z offs)
                    (map Z.of_nat (seq start m))).
Proof.
  intros Hnd Hoffs m. induction m as [|m IH]; intros start; simpl.
  - constructor.
  - apply NoDup_app. split; [| split].
    + apply NoDup_fmap_2; [| exact Hnd]. intros a b Hab. lia.
    + intros x Hx Hx'.
      apply list_elem_of_fmap in Hx as (j & -> & Hj).
      apply list_elem_of_In, in_flat_map in Hx' as (i & Hi & Hx').
      apply in_map_iff in Hi as (k & <- & Hk). apply in_seq in Hk.
      apply in_map_iff in Hx' as (j' & Heq & Hj').
      rewrite Forall_forall in Hoffs.
      pose proof (Hoffs j Hj) as B. 
      apply list_elem_of_In in Hj'. pose proof (Hoffs j' Hj') as B'.
      nia.
    + apply IH.
Qed.

Lemma flat_map_fmap_ext {A B C : Type} (f : B -> list C) (g : A -> B)
    (h : A -> list C) (l : list A) :
  (forall x, f (g x) = h x) -> flat_map f (map g l) = flat_map h l.
Proof.
  intros Hfg. induction l as [|x l IH]; simpl; [reflexivity|].
  rewrite Hfg, IH. reflexivity.
Qed.

Lemma gaussian_pattern_seeds (p : GcalOd.Params) (e : string) (i : Z) :
  pattern_seeds (GcalOd.gaussian_input p e i)
  = map inject_Z (map (fun j => GcalOd.input_seed + j + 6 * i)%Z [0; 1; 2; 3; 5]%Z).
Proof.
  unfold GcalOd.gaussian_input, GcalOd.flip_for, GcalOd.uniform, pattern_seeds.
  destruct (String.eqb e "Right"); simpl;
    repeat (f_equal; try (f_equal; lia)).
Qed.

Lemma nature_pattern_seeds (p : GcalOd.Params) (e f : string) (i : Z) :
  pattern_seeds (GcalOd.nature_input p e f i)
  = map inject_Z (map (fun j => GcalOd.input_seed + j + 5 * i)%Z [0; 1; 2; 3; 4]%Z).
Proof.
  unfold GcalOd.nature_input, GcalOd.flip_for, GcalOd.uniform, pattern_seeds.
  destruct (String.eqb e "Right"); simpl;
    repeat (f_equal; try (f_equal; lia)).
Qed.

Lemma input_seeds_by_stride (p : GcalOd.Params) (e : string) :
  input_seeds p e
  = map inject_Z
      (match GcalOd.dataset p with
       | GcalOd.DsGaussian =>
           flat_map (fun i => map (fun j => GcalOd.input_seed + j + 6 * i)%Z
                                  [0; 1; 2; 3; 5]%Z)
                    (xrange (GcalOd.total_num_inputs p))
       | GcalOd.DsNature =>
           flat_map (fun i => map (fun j => GcalOd.input_seed + j + 5 * i)%Z
                                  [0; 1; 2; 3; 4]%Z)
                    (xrange 25)
       end).
Proof.
  unfold input_seeds, GcalOd.inputs. destruct (GcalOd.dataset p).
  - unfold GcalOd.gaussian_inputs. rewrite <- flat_map_inject.
    apply flat_map_fmap_ext. intros i. apply gaussian_pattern_seeds.
  - unfold GcalOd.nature_inputs. rewrite <- flat_map_inject.
    assert (Hz : map snd (zip GcalOd.image_filenames
                              (xrange (len GcalOd.image_filenames)))
                 = xrange 25) by (vm_compute; reflexivity).
    rewrite <- Hz.
    rewrite (flat_map_fmap_ext _ _
               (fun fi : string * Z =>
                  map inject_Z
                    (map (fun j => GcalOd.input_seed + j + 5 * fi.2)%Z
                         [0; 1; 2; 3; 4]%Z)))
      by (intros [f i]; apply nature_pattern_seeds).
    symmetry. apply (flat_map_fmap_ext _ snd). intros [f i]. reflexivity.
Qed.

(** X13. For all parameter values and either dataset, no two random
    streams behind the patterns of one eye share a seed, and the two eyes
    (any two eye names) read exactly the same seeds in the same order: the
    patterns differ between the eyes only by what the script derives from
    the shared draws. *)
Theorem seeds_distinct_and_shared (p : GcalOd.Params) (e e' : string) :
  NoDup (input_seeds p e)
  /\ input_seeds p e = input_seeds p e'
  /\ length (input_seeds p e) = (5 * length (GcalOd.inputs p e))%nat.
Proof.
  split; [| split].
  - rewrite input_seeds_by_stride.
    apply NoDup_fmap_2; [intros a b Hab; injection Hab; auto|].
    destruct (GcalOd.dataset p); unfold xrange;
      apply strided_seeds_NoDup;
      first [ apply (bool_decide_unpack _); vm_compute; exact I
            | repeat constructor; lia ].
  - rewrite !input_seeds_by_stride. reflexivity.
  - unfold input_seeds.
    assert (H5 : Forall (fun g => length (pattern_seeds g) = 5%nat) (GcalOd.inputs p e)).
    { unfold GcalOd.inputs. destruct (GcalOd.dataset p).
      - unfold GcalOd.gaussian_inputs. apply Forall_fmap, Forall_forall.
        intros i _.
        change (length (pattern_seeds (GcalOd.gaussian_input p e i)) = 5%nat).
        rewrite gaussian_pattern_seeds. reflexivity.
      - unfold GcalOd.nature_inputs. apply Forall_fmap, Forall_forall.
        intros [f i] _.
        change (length (pattern_seeds (GcalOd.nature_input p e f i)) = 5%nat).
        rewrite nature_pattern_seeds. reflexivity. }
    induction H5 as [|g l Hg _ IH]; simpl; [reflexivity|].
    rewrite length_app, Hg, IH. lia.
Qed.

(** ** Disparity between the eyes *)

(** Adding a zero leaves the value of a double unchanged. *)
Lemma add_zero64 (x : spec_float) (s : bool) :
  Binary64.to_Q (Binary64.add x (S754_zero s)) = Binary64.to_Q x.
Proof. destruct x as [sx | sx | | sx m e]; destruct s; try destruct sx; reflexivity. Qed.

(** A uniform draw between [-0.0] and [0.0] is a zero. *)
Lemma zero_disparity64 (r : spec_float) :
  Binary64.is_finite r = true ->
  exists s : bool,
    uniform_value (SFopp (Binary64.of_Q 0.0)) (Binary64.of_Q 0.0) r = S754_zero s.
Proof.
  destruct r as [sr | sr | | sr m e]; intros Hr; try discriminate;
    destruct sr; eexists; vm_compute; reflexivity.
Qed.


(** With 'dy' among the dimensions the disparity bound is not zero. *)
Example disparity_bound_with_dy :
  GcalOd.disparity_bound stereo == 0.08333
  /\ pattern_x (GcalOd.gaussian_input stereo "Right" 0)
     = Some (BinaryOperator OpAdd
               (GcalOd.uniform (- (1.0 / 2.0 + 0.2)) (1.0 / 2.0 + 0.2) 500)
               (BinaryOperator OpMul
                  (GcalOd.uniform (- (4.0 * 0.041665 / 2.0)) (4.0 * 0.041665 / 2.0) 501)
                  (Num 1))).
Proof. split; reflexivity. Qed.

(** ** The notebook's densities *)

(** X15. The notebook builds its model at density 10 for both sheets
    whatever densities it is given: its customisation cell assigns both
    parameters before the model definition reads them, so two runs that
    agree on the seeds, [radius_0] and [alpha_0] issue the same statements
    with the same arguments. *)
Theorem notebook_overrides_densities (p0 p0' : SomRetinotopy.Params) :
  SomRetinotopy.input_seed p0 = SomRetinotopy.input_seed p0' ->
  SomRetinotopy.weight_seed p0 = SomRetinotopy.weight_seed p0' ->
  SomRetinotopy.radius_0 p0 = SomRetinotopy.radius_0 p0' ->
  SomRetinotopy.alpha_0 p0 = SomRetinotopy.alpha_0 p0' ->
  SomRetinotopy.trace p0 = SomRetinotopy.trace p0'
  /\ nominal_density <$> (registry (SomRetinotopy.trace p0) !! "Retina")
     = Some (Some (inject_Z 10))
  /\ nominal_density <$> (registry (SomRetinotopy.trace p0) !! "V1")
     = Some (Some (inject_Z 10)).
Proof.
  intros Hi Hw Hr Ha. destruct p0, p0'. simpl in Hi, Hw, Hr, Ha. subst.
  repeat split; vm_compute; reflexivity.
Qed.

Lemma notebook_overrides_densities_witness :
  SomRetinotopy.trace SomRetinotopy.defaults = SomRetinotopy.trace full_density.
Proof.
  apply (notebook_overrides_densities SomRetinotopy.defaults full_density);
    reflexivity.
Defined.

(** ** Layout scale and V1 afferents *)

(** X16. The layout is scaled to the number of eyes: the horizontal step
    is [70/len(eyes)] and the item scale [0.6/len(eyes)], so that the grid
    is 280 wide and the items of one row of eyes add up to scale 0.6
    whether the model has one eye or two. *)
Theorem layout_width_is_constant (p : GcalOd.Params) :
  Forall (fun s => (s.1.1 * s.2 = 280)%Z
                   /\ s.1.2 * inject_Z (len (GcalOd.eyes p)) == 0.6
                   /\ s.1.1 = (70 / len (GcalOd.eyes p))%Z)
         (layout_scales (GcalOd.trace p))
  /\ length (layout_scales (GcalOd.trace p)) = 1%nat.
Proof.
  script_cases p; split; vm_compute; repeat constructor.
Qed.

(** X17. For all parameter values, every LGN-to-V1 projection is created
    with the same settings: learning rate [p.aff_lr], the destination port
    that puts it in V1's jointly normalised afferent group, and strength
    [p.aff_strength], multiplied by 1.5 exactly when gain control is on.
    The two lateral projections of V1 are not in that group. *)
Theorem V1_afferents_are_uniform (p : GcalOd.Params) :
  let t := GcalOd.trace p in
  connect_settings lgn_to_V1_wire t
  = replicate (Z.to_nat (GcalOd.num_aff p))
      (Some (GcalOd.aff_strength p * (if GcalOd.gain_control p then 1.5 else 1.0)),
       Some (LrConst (GcalOd.aff_lr p)),
       ["Activity"; "JointNormalize"; "Afferent"])
  /\ connect_settings V1_lateral_wire t
     = [(Some (GcalOd.exc_strength p), Some (LrConst (GcalOd.exc_lr p)), []);
        (Some (- 1.0 * GcalOd.inh_strength p), Some (LrConst (GcalOd.inh_lr p)), [])].
Proof.
  intros t. subst t. script_cases p; split; vm_compute; reflexivity.
Qed.
